(** * User Directory Service (mongo-docker/app): a shallow embedding

    The service layer ([services.py]), the resource router ([app/routers.py])
    and the request pipeline ([app/middleware.py], [app/main.py]) are embedded
    as computations in a state-and-exception monad over a [World] that holds
    the [users] collection, the environment the code reads (clock, identifier
    generator, outcome of the liveness probe) and the effects it leaves behind
    (store commands issued, standard output, structured log).

    Python dictionaries are finite maps from field names to values; the
    collection is a list of documents in natural (insertion) order. *)

From Stdlib Require Import ZArith Strings.Byte Ascii String QArith Qround Lia.
From stdpp Require Import gmap strings list fin_maps.

Local Open Scope string_scope.
Local Open Scope list_scope.

(** ** Hexadecimal text and [bson.ObjectId] *)

Definition hex_digit (n : N) : ascii :=
  nth (N.to_nat n) (list_ascii_of_string "0123456789abcdef") "0"%char.

Definition hex_value (c : ascii) : option N :=
  let n := N_of_ascii c in
  if ((48 <=? n) && (n <=? 57))%N then Some (n - 48)%N
  else if ((97 <=? n) && (n <=? 102))%N then Some (n - 87)%N
  else if ((65 <=? n) && (n <=? 70))%N then Some (n - 55)%N
  else None.

Definition byte_hex (b : byte) : list ascii :=
  let n := Byte.to_N b in [hex_digit (n / 16); hex_digit (n mod 16)].

Definition hex_byte (c1 c2 : ascii) : option byte :=
  h ← hex_value c1; l ← hex_value c2; Byte.of_N (16 * h + l).

(** [bytes.fromhex] on a string without blanks. *)
Fixpoint fromhex (cs : list ascii) : option (list byte) :=
  match cs with
  | [] => Some []
  | c1 :: c2 :: rest =>
      b ← hex_byte c1 c2; bs ← fromhex rest; Some (b :: bs)
  | _ => None
  end.

Definition hex (bs : list byte) : list ascii := bs ≫= byte_hex.

(** An [ObjectId] is twelve bytes. *)
Inductive ObjectId : Type :=
  OID (b0 b1 b2 b3 b4 b5 b6 b7 b8 b9 b10 b11 : byte).

Definition oid_bytes (o : ObjectId) : list byte :=
  let 'OID b0 b1 b2 b3 b4 b5 b6 b7 b8 b9 b10 b11 := o in
  [b0; b1; b2; b3; b4; b5; b6; b7; b8; b9; b10; b11].

(** [str(oid)]: twenty-four lowercase hexadecimal digits. *)
Definition ObjectId_str (o : ObjectId) : string :=
  string_of_list_ascii (hex (oid_bytes o)).

(** [ObjectId(s)] for a [str] argument: the string must have length 24 and
    be hexadecimal, otherwise [InvalidId] is raised ([None] here). *)
Definition ObjectId_parse (s : string) : option ObjectId :=
  if (String.length s =? 24)%nat then
    match fromhex (list_ascii_of_string s) with
    | Some [b0; b1; b2; b3; b4; b5; b6; b7; b8; b9; b10; b11] =>
        Some (OID b0 b1 b2 b3 b4 b5 b6 b7 b8 b9 b10 b11)
    | _ => None
    end
  else None.

#[global] Instance byte_eq_dec : EqDecision byte := Byte.byte_eq_dec.
#[global] Instance ObjectId_eq_dec : EqDecision ObjectId.
Proof. solve_decision. Defined.

(** ** Values and documents *)

(** [datetime] values are counted in microseconds. *)
Definition datetime := Z.

Inductive value : Type :=
| VNull
| VStr (s : string)
| VInt (z : Z)
| VTime (t : datetime).

#[global] Instance value_eq_dec : EqDecision value.
Proof. solve_decision. Defined.

(** The store keeps a date as a 64-bit count of milliseconds since the epoch:
    what the driver writes for a [datetime], and hands back when the document
    is read, is the value cut down to the whole millisecond at or below it. *)
Definition bson_datetime (t : datetime) : datetime := (1000 * (t `div` 1000))%Z.

Definition bson_value (v : value) : value :=
  match v with
  | VTime t => VTime (bson_datetime t)
  | _ => v
  end.

(** A dictionary as the store keeps it. *)
Definition bson_document (f : gmap string value) : gmap string value :=
  bson_value <$> f.

(** A stored document: the store-assigned [_id] and the remaining fields. *)
Record Document : Type := mkDocument {
  doc_id : ObjectId;
  doc_fields : gmap string value
}.

#[global] Instance Document_eq_dec : EqDecision Document.
Proof. solve_decision. Defined.

(** ** The models of [models.py] *)

Definition name_ok (s : string) : bool :=
  ((1 <=? String.length s) && (String.length s <=? 100))%nat.

Definition age_ok (a : Z) : bool := ((0 <=? a) && (a <=? 150))%Z.

(** [pattern="^(active|inactive|suspended)$"] *)
Definition status_ok (s : string) : bool :=
  String.eqb s "active" || String.eqb s "inactive" || String.eqb s "suspended".

Module UserCreate.
Record t : Type := mk {
  name : string;
  email : string;
  age : option Z;
  status : string
}.

(** [user_data.model_dump()] *)
Definition model_dump (u : t) : gmap string value :=
  <["name" := VStr (name u)]>
  (<["email" := VStr (email u)]>
  (<["age" := from_option VInt VNull (age u)]>
  (<["status" := VStr (status u)]> ∅))).
End UserCreate.

Module UserUpdate.
(** Every field is optional; the outer [option] records whether the request
    set the field at all, the inner one whether it was set to [None]. *)
Record t : Type := mk {
  name : option (option string);
  email : option (option string);
  age : option (option Z);
  status : option (option string)
}.

Definition dump_field {A} (k : string) (inj : A → value)
    (f : option (option A)) (m : gmap string value) : gmap string value :=
  match f with
  | None => m
  | Some v => <[k := from_option inj VNull v]> m
  end.

(** [update_data.model_dump(exclude_unset=True)] *)
Definition model_dump (u : t) : gmap string value :=
  dump_field "name" VStr (name u)
  (dump_field "email" VStr (email u)
  (dump_field "age" VInt (age u)
  (dump_field "status" VStr (status u) ∅))).

Definition empty : t := mk None None None None.
End UserUpdate.

Module User.
Record t : Type := mk {
  id : string;
  name : string;
  email : string;
  age : option Z;
  status : string;
  created_at : datetime;
  updated_at : datetime
}.
End User.

Module PaginationInfo.
Record t : Type := mk { page : Z; limit : Z; total : Z; pages : Z }.
End PaginationInfo.

Module UserListResponse.
Record t : Type := mk { users : list User.t; pagination : PaginationInfo.t }.
End UserListResponse.

Module HealthResponse.
Record t : Type := mk { status : string; database : string; timestamp : datetime }.
End HealthResponse.

Module SuccessResponse.
Record t : Type := mk { message : string }.
End SuccessResponse.

(** ** Exceptions, the world and the monad *)

(** The exception classes that occur; every one of them derives from
    [Exception]. *)
Inductive PyExc : Type :=
| InvalidId (oid : string)                (* bson.errors.InvalidId *)
| ValidationError (model : string)        (* pydantic.ValidationError *)
| DuplicateKeyError (index : string)      (* pymongo.errors.DuplicateKeyError *)
| ValueError (msg : string)
| NameError (name : string)
| ConnectionFailure (msg : string)        (* pymongo.errors.ConnectionFailure *)
| RequestValidationError (param : string) (* fastapi, answered with 422 *)
| HTTPException (status_code : Z) (detail : string).

(** [str(exc)] *)
Definition exc_str (e : PyExc) : string :=
  match e with
  | InvalidId s => "'" +:+ s +:+ "' is not a valid ObjectId, it must be a 12-byte input or a 24-character hex string"
  | ValidationError m => "validation error for " +:+ m
  | DuplicateKeyError i => "E11000 duplicate key error index: " +:+ i
  | ValueError m => m
  | NameError n => "name '" +:+ n +:+ "' is not defined"
  | ConnectionFailure m => m
  | RequestValidationError p => "validation error for " +:+ p
  | HTTPException _ d => d
  end.

(** Commands sent to the document store. *)
Inductive StoreOp : Type :=
| OpFindOneId (oid : ObjectId)
| OpFindOneEmail (email : string)
| OpInsertOne (doc : gmap string value)
| OpUpdateOne (oid : ObjectId) (set : gmap string value)
| OpDeleteOne (oid : ObjectId)
| OpFind (skip limit : Z)
| OpCountDocuments
| OpPing.

Definition is_write (op : StoreOp) : bool :=
  match op with
  | OpInsertOne _ | OpUpdateOne _ _ | OpDeleteOne _ => true
  | _ => false
  end.

Inductive LogValue : Type := LStr (s : string) | LInt (z : Z) | LNone.

Record LogEntry : Type := mkLogEntry {
  level : string;
  event : string;
  fields : list (string * LogValue)
}.

Record World : Type := mkWorld {
  users : list Document;         (* db.users, in natural order *)
  email_index : bool;            (* the unique index on email was created *)
  clock : nat → datetime;        (* successive readings of the wall clock *)
  ticks : nat;                   (* readings taken so far *)
  oid_source : nat → ObjectId;   (* identifiers the driver will generate *)
  oids_taken : nat;
  ping : option PyExc;           (* what db.command('ping') raises, if anything *)
  ops : list StoreOp;            (* store commands issued, oldest first *)
  stdout : list string;
  log : list LogEntry
}.

Definition set_users (l : list Document) (w : World) : World :=
  mkWorld l (email_index w) (clock w) (ticks w) (oid_source w) (oids_taken w)
          (ping w) (ops w) (stdout w) (log w).
Definition set_ticks (n : nat) (w : World) : World :=
  mkWorld (users w) (email_index w) (clock w) n (oid_source w) (oids_taken w)
          (ping w) (ops w) (stdout w) (log w).
Definition set_oids_taken (n : nat) (w : World) : World :=
  mkWorld (users w) (email_index w) (clock w) (ticks w) (oid_source w) n
          (ping w) (ops w) (stdout w) (log w).
Definition set_ops (l : list StoreOp) (w : World) : World :=
  mkWorld (users w) (email_index w) (clock w) (ticks w) (oid_source w)
          (oids_taken w) (ping w) l (stdout w) (log w).
Definition set_stdout (l : list string) (w : World) : World :=
  mkWorld (users w) (email_index w) (clock w) (ticks w) (oid_source w)
          (oids_taken w) (ping w) (ops w) l (log w).
Definition set_log (l : list LogEntry) (w : World) : World :=
  mkWorld (users w) (email_index w) (clock w) (ticks w) (oid_source w)
          (oids_taken w) (ping w) (ops w) (stdout w) l.

Inductive outcome (A : Type) : Type :=
| Return (a : A)
| Raise (e : PyExc).
Arguments Return {A} a.
Arguments Raise {A} e.

(** A computation runs in a world and ends by returning or raising; what it
    did to the world before raising stays done. *)
Definition M (A : Type) : Type := World → outcome A * World.

#[global] Instance M_ret : MRet M := λ A a w, (Return a, w).
#[global] Instance M_bind : MBind M := λ A B f m w,
  match m w with
  | (Return a, w') => f a w'
  | (Raise e, w') => (Raise e, w')
  end.

Definition raise {A} (e : PyExc) : M A := λ w, (Raise e, w).

(** [try: body  except Exception as e: handler e] *)
Definition try_except {A} (body : M A) (handler : PyExc → M A) : M A := λ w,
  match body w with
  | (Return a, w') => (Return a, w')
  | (Raise e, w') => handler e w'
  end.

Definition get_world : M World := λ w, (Return w, w).
Definition modify (f : World → World) : M unit := λ w, (Return (), f w).

(** [None] from a validator is the exception [e]. *)
Definition or_raise {A} (e : PyExc) (o : option A) : M A :=
  match o with Some a => mret a | None => raise e end.

(** [datetime.utcnow()] and [time.time()] read the wall clock. *)
Definition utcnow : M datetime := λ w,
  (Return (clock w (ticks w)), set_ticks (S (ticks w)) w).

Definition print (line : string) : M unit :=
  modify (λ w, set_stdout (stdout w ++ [line]) w).

Definition logger_emit (lvl ev : string) (kv : list (string * LogValue)) : M unit :=
  modify (λ w, set_log (log w ++ [mkLogEntry lvl ev kv]) w).

Definition issue (op : StoreOp) : M unit :=
  modify (λ w, set_ops (ops w ++ [op]) w).

(** Looking a global name up in a module whose bound names are [ns]. *)
Definition load_global (ns : list string) (name : string) : M unit :=
  if bool_decide (name ∈ ns) then mret () else raise (NameError name).

(** ** The [users] collection *)

Definition has_id (oid : ObjectId) (d : Document) : Prop := doc_id d = oid.
Definition has_email (e : string) (d : Document) : Prop :=
  doc_fields d !! "email" = Some (VStr e).

#[global] Instance has_id_dec oid d : Decision (has_id oid d).
Proof. unfold has_id. apply _. Defined.
#[global] Instance has_email_dec e d : Decision (has_email e d).
Proof. unfold has_email. apply _. Defined.

(** The key under which the unique index files a document: a missing field
    counts as null. *)
Definition email_key (f : gmap string value) : value :=
  default VNull (f !! "email").

(** [collection.find_one({"_id": oid})] *)
Definition find_one_id (oid : ObjectId) : M (option Document) :=
  issue (OpFindOneId oid);;
  w ← get_world;
  mret (snd <$> list_find (has_id oid) (users w)).

(** [collection.find_one({"email": email})] *)
Definition find_one_email (e : string) : M (option Document) :=
  issue (OpFindOneEmail e);;
  w ← get_world;
  mret (snd <$> list_find (has_email e) (users w)).

(** [collection.insert_one(doc)] for a document without [_id]: the driver
    generates one and writes the document in the store's encoding; the store
    refuses a duplicate [_id] and, when the unique index exists, a duplicate
    email. *)
Definition insert_one (doc : gmap string value) : M ObjectId :=
  issue (OpInsertOne doc);;
  w ← get_world;
  let oid := oid_source w (oids_taken w) in
  let stored := bson_document doc in
  modify (set_oids_taken (S (oids_taken w)));;
  if bool_decide (Exists (has_id oid) (users w)) then
    raise (DuplicateKeyError "_id_")
  else if email_index w
          && bool_decide (Exists (λ d, email_key (doc_fields d) = email_key stored) (users w)) then
    raise (DuplicateKeyError "email_1")
  else
    modify (set_users (users w ++ [mkDocument oid stored]));;
    mret oid.

(** Whether filing the fields [f] in place of [old] would break the unique
    index on email. *)
Definition email_clash (ix : bool) (f old : gmap string value) (l : list Document) : bool :=
  ix && bool_decide (email_key f ≠ email_key old)
     && bool_decide (Exists (λ d', email_key (doc_fields d') = email_key f) l).

(** [collection.update_one({"_id": oid}, {"$set": upd})]; the result is
    [modified_count]. The values of [upd] are written in the store's
    encoding, and a document that the update leaves as it was is matched but
    not modified. *)
Definition update_one (oid : ObjectId) (upd : gmap string value) : M Z :=
  issue (OpUpdateOne oid upd);;
  w ← get_world;
  match list_find (has_id oid) (users w) with
  | None => mret 0%Z
  | Some (i, d) =>
      let f := bson_document upd ∪ doc_fields d in
      if bool_decide (f = doc_fields d) then mret 0%Z
      else if email_clash (email_index w) f (doc_fields d) (users w) then
        raise (DuplicateKeyError "email_1")
      else
        modify (set_users (<[i := mkDocument (doc_id d) f]> (users w)));;
        mret 1%Z
  end.

(** [collection.delete_one({"_id": oid})]; the result is [deleted_count]. *)
Definition delete_one (oid : ObjectId) : M Z :=
  issue (OpDeleteOne oid);;
  w ← get_world;
  match list_find (has_id oid) (users w) with
  | None => mret 0%Z
  | Some (i, _) => modify (set_users (delete i (users w)));; mret 1%Z
  end.

(** [collection.find().skip(skip).limit(limit)], read to the end. A limit of
    zero means no limit, a negative one counts as its absolute value, and a
    negative skip is refused by the driver. *)
Definition find_skip_limit (skip limit : Z) : M (list Document) :=
  if (skip <? 0)%Z then raise (ValueError "skip must be >= 0")
  else
    issue (OpFind skip limit);;
    w ← get_world;
    let rest := drop (Z.to_nat skip) (users w) in
    mret (if (limit =? 0)%Z then rest else take (Z.to_nat (Z.abs limit)) rest).

(** [collection.count_documents({})] *)
Definition count_documents : M Z :=
  issue OpCountDocuments;;
  w ← get_world;
  mret (Z.of_nat (length (users w))).

(** [db.command('ping')] *)
Definition command_ping : M unit :=
  issue OpPing;;
  w ← get_world;
  match ping w with
  | None => mret ()
  | Some e => raise e
  end.

(** ** Building a [User] from a dictionary *)

Section validation.
(** [EmailStr] is validated by a library outside the repository: it accepts or
    refuses an address, and returns an accepted one in normal form. *)
Context (validate_email : string → option string).

(** The validators of the fields of [User], each applied to what the
    dictionary holds under the field's key ([None] when the key is missing);
    [None] as a result stands for pydantic's [ValidationError]. Values occur
    in a document only in the shapes this service writes (text, integer,
    null, timestamp), and a field of another shape is refused. *)
Definition validate_id (v : option value) : option string :=
  match v with Some (VStr s) => Some s | _ => None end.

(** [name: str = Field(..., min_length=1, max_length=100)] *)
Definition validate_name (v : option value) : option string :=
  match v with
  | Some (VStr s) => if name_ok s then Some s else None
  | _ => None
  end.

(** [email: EmailStr = Field(...)] *)
Definition validate_email_field (v : option value) : option string :=
  match v with
  | Some (VStr s) => validate_email s
  | _ => None
  end.

(** [age: Optional[int] = Field(None, ge=0, le=150)] *)
Definition validate_age (v : option value) : option (option Z) :=
  match v with
  | None | Some VNull => Some None
  | Some (VInt a) => if age_ok a then Some (Some a) else None
  | _ => None
  end.

(** [status: str = Field(default="active", pattern=...)] *)
Definition validate_status (v : option value) : option string :=
  match v with
  | None => Some "active"
  | Some (VStr s) => if status_ok s then Some s else None
  | _ => None
  end.

(** [created_at: datetime = Field(...)], [updated_at: datetime = Field(...)] *)
Definition validate_datetime (v : option value) : option datetime :=
  match v with Some (VTime t) => Some t | _ => None end.

(** [User] applied to the dictionary [d] *)
Definition User_of_dict (d : gmap string value) : option User.t :=
  id ← validate_id (d !! "_id");
  name ← validate_name (d !! "name");
  email ← validate_email_field (d !! "email");
  age ← validate_age (d !! "age");
  status ← validate_status (d !! "status");
  created_at ← validate_datetime (d !! "created_at");
  updated_at ← validate_datetime (d !! "updated_at");
  Some (User.mk id name email age status created_at updated_at).

(** A document as the driver hands it over, after
    [user["_id"] = str(user["_id"])]. *)
Definition Document_dict (d : Document) : gmap string value :=
  <["_id" := VStr (ObjectId_str (doc_id d))]> (doc_fields d).

Definition user_of (d : Document) : option User.t :=
  User_of_dict (Document_dict d).

(** [user["_id"] = str(user["_id"])] followed by [User] applied to [user] *)
Definition User_of_document (d : Document) : M User.t :=
  or_raise (ValidationError "User") (user_of d).

(** A [UserCreate] instance as the router receives it: its fields have passed
    the validators of [UserBase] and are what those validators return. *)
Definition UserCreate_valid (u : UserCreate.t) : bool :=
  name_ok (UserCreate.name u)
  && bool_decide (validate_email (UserCreate.email u) = Some (UserCreate.email u))
  && from_option age_ok true (UserCreate.age u)
  && status_ok (UserCreate.status u).

(** A [UserUpdate] instance as the router receives it: a field that is set
    and not null has passed its validator and is what the validator
    returns. *)
Definition UserUpdate_valid (p : UserUpdate.t) : bool :=
  from_option (from_option name_ok true) true (UserUpdate.name p)
  && from_option
       (from_option (λ e, bool_decide (validate_email e = Some e)) true) true
       (UserUpdate.email p)
  && from_option (from_option age_ok true) true (UserUpdate.age p)
  && from_option (from_option status_ok true) true (UserUpdate.status p).

End validation.

(** [ObjectId(user_id)] *)
Definition ObjectId_new (user_id : string) : M ObjectId :=
  or_raise (InvalidId user_id) (ObjectId_parse user_id).

(** ** [services.py] *)

(** The names bound at module level in [services.py]: its imports, its two
    classes and its two dependency functions. *)
Definition services_globals : list string :=
  ["datetime"; "List"; "Optional"; "Dict"; "Any"; "Annotated";
   "AsyncIOMotorDatabase"; "ObjectId"; "Depends";
   "UserCreate"; "UserUpdate"; "User"; "PaginationInfo"; "get_database";
   "UserService"; "SystemService"; "get_user_service"; "get_system_service"].

Module UserService.
Section service.
Context (validate_email : string → option string).

Definition create_user (user_data : UserCreate.t) : M User.t :=
  let user_dict := UserCreate.model_dump user_data in
  created_at ← utcnow;
  updated_at ← utcnow;
  let user_dict :=
    <["updated_at" := VTime updated_at]> (<["created_at" := VTime created_at]> user_dict) in
  inserted_id ← insert_one user_dict;
  let user_dict := <["_id" := VStr (ObjectId_str inserted_id)]> user_dict in
  print ("User created: " +:+ ObjectId_str inserted_id +:+ ", email: "
         +:+ UserCreate.email user_data);;
  or_raise (ValidationError "User") (User_of_dict validate_email user_dict).

Definition get_user_by_id (user_id : string) : M (option User.t) :=
  try_except
    (oid ← ObjectId_new user_id;
     user ← find_one_id oid;
     match user with
     | Some d => u ← User_of_document validate_email d; mret (Some u)
     | None => mret None
     end)
    (λ _, mret None).

Definition get_user_by_email (email : string) : M (option User.t) :=
  user ← find_one_email email;
  match user with
  | Some d => u ← User_of_document validate_email d; mret (Some u)
  | None => mret None
  end.

Definition update_user (user_id : string) (update_data : UserUpdate.t)
  : M (option User.t) :=
  let update_dict := UserUpdate.model_dump update_data in
  if bool_decide (update_dict = ∅) then get_user_by_id user_id
  else
    now ← utcnow;
    let update_dict := <["updated_at" := VTime now]> update_dict in
    oid ← ObjectId_new user_id;
    modified_count ← update_one oid update_dict;
    if bool_decide (modified_count ≠ 0%Z) then
      print ("User updated: " +:+ user_id);;
      get_user_by_id user_id
    else mret None.

Definition delete_user (user_id : string) : M bool :=
  oid ← ObjectId_new user_id;
  deleted_count ← delete_one oid;
  if bool_decide (deleted_count ≠ 0%Z) then
    print ("User deleted: " +:+ user_id);;
    mret true
  else mret false.

Definition list_users (skip limit : Z) : M (list User.t) :=
  cursor ← find_skip_limit skip limit;
  mapM (User_of_document validate_email) cursor.

Definition count_users : M Z := count_documents.

End service.
End UserService.

Module SystemService.

Definition health_check : M (gmap string string) :=
  try_except
    (command_ping;;
     mret {[ "status" := "healthy"; "database" := "connected" ]})
    (λ e,
       load_global services_globals "logger";;
       logger_emit "error" "Health check failed" [("error", LStr (exc_str e))];;
       mret {[ "status" := "unhealthy"; "database" := "disconnected" ]}).

End SystemService.

(** ** [app/routers.py] *)

Module routers.
Section router.
Context (validate_email : string → option string).

Definition create_user (user_data : UserCreate.t) : M User.t :=
  existing_user ← UserService.get_user_by_email validate_email (UserCreate.email user_data);
  match existing_user with
  | Some _ => raise (HTTPException 409 "User with this email already exists")
  | None => UserService.create_user validate_email user_data
  end.

(** [page: int = Query(1, ge=1)], [limit: int = Query(10, ge=1, le=100)] *)
Definition list_users (page limit : Z) : M UserListResponse.t :=
  if negb (1 <=? page)%Z then raise (RequestValidationError "page")
  else if negb ((1 <=? limit) && (limit <=? 100))%Z then
    raise (RequestValidationError "limit")
  else
    let skip := ((page - 1) * limit)%Z in
    users ← UserService.list_users validate_email skip limit;
    total ← UserService.count_users;
    let pagination :=
      PaginationInfo.mk page limit total ((total + limit - 1) `div` limit)%Z in
    mret (UserListResponse.mk users pagination).

Definition get_user (user_id : string) : M User.t :=
  user ← UserService.get_user_by_id validate_email user_id;
  match user with
  | None => raise (HTTPException 404 "User not found")
  | Some u => mret u
  end.

Definition update_user (user_id : string) (user_data : UserUpdate.t) : M User.t :=
  existing_user ← UserService.get_user_by_id validate_email user_id;
  match existing_user with
  | None => raise (HTTPException 404 "User not found")
  | Some _ =>
      updated_user ← UserService.update_user validate_email user_id user_data;
      match updated_user with
      | None => raise (HTTPException 500 "Failed to update user")
      | Some u => mret u
      end
  end.

Definition delete_user (user_id : string) : M SuccessResponse.t :=
  existing_user ← UserService.get_user_by_id validate_email user_id;
  match existing_user with
  | None => raise (HTTPException 404 "User not found")
  | Some _ =>
      success ← UserService.delete_user user_id;
      if (success : bool) then mret (SuccessResponse.mk "User deleted successfully")
      else raise (HTTPException 500 "Failed to delete user")
  end.

End router.

(** [HealthResponse] applied to [health_data]; the timestamp defaults to
    [datetime.utcnow()]. *)
Definition HealthResponse_of_dict (d : gmap string string) : M HealthResponse.t :=
  status ← or_raise (ValidationError "HealthResponse") (d !! "status");
  database ← or_raise (ValidationError "HealthResponse") (d !! "database");
  timestamp ← utcnow;
  mret (HealthResponse.mk status database timestamp).

Definition health_check : M HealthResponse.t :=
  health_data ← SystemService.health_check;
  if bool_decide (health_data !! "status" = Some "healthy") then
    HealthResponse_of_dict health_data
  else raise (HTTPException 503 "Service is unhealthy").

End routers.

(** ** Responses *)

Inductive Body : Type :=
| BUser (u : User.t)
| BUserList (r : UserListResponse.t)
| BHealth (h : HealthResponse.t)
| BSuccess (s : SuccessResponse.t)
| BDetail (detail : string)              (* {"detail": detail} *)
| BJson (content : gmap string string).

Record Response : Type := mkResponse {
  status_code : Z;
  body : Body
}.

Record Request : Type := mkRequest {
  method : string;
  url : string;
  client_host : option string;
  user_agent : option string
}.

Definition log_opt (o : option string) : LogValue := from_option LStr LNone o.

(** A route answers with its declared status code and the serialised model. *)
Definition serve {A} (ok : Z) (render : A → Body) (endpoint : M A) : M Response :=
  a ← endpoint; mret (mkResponse ok (render a)).

(** The framework's innermost stage turns the two exceptions it knows into
    responses and lets every other one through. *)
Definition exception_middleware (inner : M Response) : M Response :=
  try_except inner
    (λ exc,
       match exc with
       | HTTPException c d => mret (mkResponse c (BDetail d))
       | RequestValidationError p => mret (mkResponse 422 (BDetail p))
       | _ => raise exc
       end).

(** ** [app/middleware.py] *)

(** The uniform error envelope. *)
Definition error_envelope : gmap string string :=
  {[ "error" := "Internal server error";
     "detail" := "An unexpected error occurred" ]}.

Module LoggingMiddleware.

(** The elapsed time is kept as a number; the source formats it as text. *)
Definition dispatch (request : Request) (call_next : M Response) : M Response :=
  start_time ← utcnow;
  logger_emit "info" "Request started"
    [("method", LStr (method request)); ("url", LStr (url request));
     ("client_ip", log_opt (client_host request));
     ("user_agent", log_opt (user_agent request))];;
  response ← call_next;
  end_time ← utcnow;
  let duration := (end_time - start_time)%Z in
  logger_emit "info" "Request completed"
    [("method", LStr (method request)); ("url", LStr (url request));
     ("status_code", LInt (status_code response)); ("duration", LInt duration)];;
  mret response.

End LoggingMiddleware.

Module ErrorHandlingMiddleware.

Definition dispatch (request : Request) (call_next : M Response) : M Response :=
  try_except
    (response ← call_next; mret response)
    (λ exc,
       logger_emit "error" "Unhandled exception"
         [("method", LStr (method request)); ("url", LStr (url request));
          ("error", LStr (exc_str exc)); ("exc_info", LStr "True")];;
       mret (mkResponse 500 (BJson error_envelope))).

End ErrorHandlingMiddleware.

(** ** [app/main.py] *)

Module main.

Definition global_exception_handler (request : Request) (exc : PyExc) : M Response :=
  logger_emit "error" "Global exception handler"
    [("error", LStr (exc_str exc)); ("exc_info", LStr "True")];;
  mret (mkResponse 500 (BJson error_envelope)).

(** [create_app]: the middleware added last is the outermost one, so a
    request passes the fault-containment stage, then the logging stage, then
    the route; the handler registered for [Exception] sits around all of
    them. *)
Definition app (request : Request) (route : M Response) : M Response :=
  try_except
    (ErrorHandlingMiddleware.dispatch request
       (LoggingMiddleware.dispatch request
          (exception_middleware route)))
    (global_exception_handler request).

End main.

(** ** Running computations *)

Definition result {A} (r : outcome A * World) : outcome A := fst r.
Definition world_after {A} (r : outcome A * World) : World := snd r.

(** The store commands a run has issued beyond those recorded before it. *)
Definition issued {A} (w : World) (r : outcome A * World) : list StoreOp :=
  drop (length (ops w)) (ops (world_after r)).

Definition no_write (l : list StoreOp) : Prop := Forall (λ op, is_write op = false) l.

(** ** What the operations compute, as functions of the collection *)

Definition find_id (oid : ObjectId) (l : list Document) : option Document :=
  snd <$> list_find (has_id oid) l.

Definition find_email (e : string) (l : list Document) : option Document :=
  snd <$> list_find (has_email e) l.

Section lookups.
Context (validate_email : string → option string).

(** The record an identifier resolves to, if any. *)
Definition lookup_user (user_id : string) (l : list Document) : option User.t :=
  oid ← ObjectId_parse user_id; d ← find_id oid l; user_of validate_email d.

(** Every stored document is a valid user record. *)
Definition store_valid (l : list Document) : Prop :=
  Forall (λ d, is_Some (user_of validate_email d)) l.

End lookups.

(** A record as it reads back from the store: its dates cut down to the
    millisecond. *)
Definition read_back (u : User.t) : User.t :=
  User.mk (User.id u) (User.name u) (User.email u) (User.age u) (User.status u)
          (bson_datetime (User.created_at u)) (bson_datetime (User.updated_at u)).

(** The patch sets none of the fields that [User] requires to null. *)
Definition keeps_required (p : UserUpdate.t) : Prop :=
  UserUpdate.name p ≠ Some None ∧ UserUpdate.email p ≠ Some None
  ∧ UserUpdate.status p ≠ Some None.

(** The patch sets at least one field to a value the document does not
    hold. *)
Definition changes_a_field (p : UserUpdate.t) (d : Document) : Prop :=
  ∃ k v, UserUpdate.model_dump p !! k = Some v ∧ doc_fields d !! k ≠ Some v.

(** The world after a lookup by identifier: the command is on record, and
    nothing else has changed. *)
Definition looked_up (user_id : string) (w : World) : World :=
  match ObjectId_parse user_id with
  | Some oid => set_ops (ops w ++ [OpFindOneId oid]) w
  | None => w
  end.

(** Identifiers are unique in the collection. *)
Definition unique_ids (l : list Document) : Prop := NoDup (doc_id <$> l).


(** The dictionary [create_user] hands to [insert_one]. *)
Definition created_dict (u : UserCreate.t) (t1 t2 : datetime) : gmap string value :=
  <["updated_at" := VTime t2]> (<["created_at" := VTime t1]> (UserCreate.model_dump u)).

(** The [$set] document [update_user] hands to [update_one]. *)
Definition set_dict (p : UserUpdate.t) (now : datetime) : gmap string value :=
  <["updated_at" := VTime now]> (UserUpdate.model_dump p).

(** The world after [insert_one] has been attempted. *)
Definition after_insert (doc : gmap string value) (w : World) : World :=
  set_oids_taken (S (oids_taken w)) (set_ops (ops w ++ [OpInsertOne doc]) w).

(** ** Sample data *)

(** A stand-in for the address validator: an address needs an at sign. *)
Definition sample_validate_email (s : string) : option string :=
  if bool_decide ("@"%char ∈ list_ascii_of_string s) then Some s else None.

Definition sample_oid (n : nat) : ObjectId :=
  OID x65 x5f x00 x00 x00 x00 x00 x00 x00 x00 x00 (default x00 (Byte.of_nat n)).

(** An empty collection with the unique index in place, a clock that
    advances by one and a half milliseconds per reading, and a store that
    answers. *)
Definition sample_world : World :=
  mkWorld [] true (λ n, 1000 + 1500 * Z.of_nat n)%Z 0 sample_oid 0 None [] [] [].

Definition ann : UserCreate.t := UserCreate.mk "Ann" "ann@x.com" None "active".
Definition bob : UserCreate.t := UserCreate.mk "Bob" "bob@x.com" (Some 41%Z) "inactive".
Definition cyd : UserCreate.t := UserCreate.mk "Cyd" "cyd@x.com" None "active".

(** The collection after Ann, Bob and Cyd have been created. *)
Definition world_ann : World :=
  world_after (routers.create_user sample_validate_email ann sample_world).
Definition world_three : World :=
  world_after (routers.create_user sample_validate_email cyd
    (world_after (routers.create_user sample_validate_email bob world_ann))).

Definition ann_id : string := "655f00000000000000000000".

Definition suspend : UserUpdate.t := UserUpdate.mk None None None (Some (Some "suspended")).

(** A wall clock that is set back after two readings. *)
Definition world_clock_set_back : World :=
  mkWorld [] true
          (λ n, if (n <? 2)%nat then 9000 + 1500 * Z.of_nat n
                else 3000 + 1500 * Z.of_nat n)%Z
          0 sample_oid 0 None [] [] [].

(** A store that does not answer the probe. *)
Definition world_probe_down : World :=
  mkWorld [] true (λ n, 1000 + Z.of_nat n)%Z 0 sample_oid 0
          (Some (ConnectionFailure "localhost:27017: connection refused")) [] [] [].

Definition sample_request : Request :=
  mkRequest "GET" "http://testserver/health" (Some "127.0.0.1") (Some "curl/8.5.0").

(** The records the samples produce: Ann as [create_user] returns her, with
    the two clock readings, and as she reads back from the store, before and
    after [suspend]. *)
Definition ann_created : User.t :=
  User.mk ann_id "Ann" "ann@x.com" None "active" 1000%Z 2500%Z.
Definition ann_user : User.t :=
  User.mk ann_id "Ann" "ann@x.com" None "active" 1000%Z 2000%Z.
Definition ann_suspended : User.t :=
  User.mk ann_id "Ann" "ann@x.com" None "suspended" 1000%Z 4000%Z.

(** A well-formed identifier that no document carries. *)
Definition absent_id : string := "ffffffffffffffffffffffff".

(** Ann created just before the clock is set back. *)
Definition world_ann_set_back : World :=
  world_after (routers.create_user sample_validate_email ann world_clock_set_back).
Definition ann_set_back : User.t :=
  User.mk ann_id "Ann" "ann@x.com" None "active" 9000%Z 10000%Z.
Definition ann_set_back_suspended : User.t :=
  User.mk ann_id "Ann" "ann@x.com" None "suspended" 9000%Z 6000%Z.

(** Ann created and then updated within one millisecond: the clock advances
    by 0.4 milliseconds per reading. *)
Definition world_fast_clock : World :=
  mkWorld [] true (λ n, 1000 + 400 * Z.of_nat n)%Z 0 sample_oid 0 None [] [] [].
Definition world_ann_fast : World :=
  world_after (routers.create_user sample_validate_email ann world_fast_clock).
Definition ann_fast : User.t :=
  User.mk ann_id "Ann" "ann@x.com" None "active" 1000%Z 1000%Z.
Definition ann_fast_suspended : User.t :=
  User.mk ann_id "Ann" "ann@x.com" None "suspended" 1000%Z 1000%Z.

(** ** Further notions *)

(** The constraints [UserBase] puts on a record. *)
Definition User_ok (u : User.t) : bool :=
  name_ok (User.name u) && from_option age_ok true (User.age u) && status_ok (User.status u).

(** No two documents are filed under the same email. *)
Definition emails_unique (l : list Document) : Prop :=
  NoDup (email_key ∘ doc_fields <$> l).

(** Whether a run ended by returning. *)
Definition returned {A} (o : outcome A) : bool :=
  match o with Return _ => true | Raise _ => false end.

(** ** The request pipeline, in terms of worlds *)

(** The entries the logging stage writes. *)
Definition started_entry (request : Request) : LogEntry :=
  mkLogEntry "info" "Request started"
    [("method", LStr (method request)); ("url", LStr (url request));
     ("client_ip", log_opt (client_host request));
     ("user_agent", log_opt (user_agent request))].

Definition completed_entry (request : Request) (status : Z) (duration : Z) : LogEntry :=
  mkLogEntry "info" "Request completed"
    [("method", LStr (method request)); ("url", LStr (url request));
     ("status_code", LInt status); ("duration", LInt duration)].

(** The world in which the logging stage calls the next stage. *)
Definition request_started (request : Request) (w : World) : World :=
  set_log (log w ++ [started_entry request]) (set_ticks (S (ticks w)) w).

(** What the caller of the application receives for an outcome of the route. *)
Definition response_for (o : outcome Response) : Response :=
  match o with
  | Return resp => resp
  | Raise (HTTPException c d) => mkResponse c (BDetail d)
  | Raise (RequestValidationError p) => mkResponse 422 (BDetail p)
  | Raise _ => mkResponse 500 (BJson error_envelope)
  end.

(** ** [app/config.py] *)

Module Settings.
Record t : Type := mk {
  app_debug : bool;
  app_host : string;
  app_port : Z;
  secret_key : string;
  jwt_secret_key : string;
  bcrypt_log_rounds : Z;
  mongodb_uri : string;
  mongodb_max_pool_size : Z;
  mongodb_min_pool_size : Z;
  mongodb_max_idle_time_ms : Z;
  log_level : string;
  log_file : string;
  default_page_size : Z;
  max_page_size : Z
}.

(** The values a field takes when the environment does not set it. *)
Definition defaults : t :=
  mk false "0.0.0.0" 5000 "dev-secret-key" "jwt-secret-key" 12
     "mongodb://localhost:27017/userdb" 50 10 30000 "INFO" "app.log" 10 100.
End Settings.

(** ** [app/database.py] *)

(** The client the driver hands out for a connection string and pool
    bounds; [close()] marks it closed. *)
Record MotorClient : Type := mkMotorClient {
  client_uri : string;
  maxPoolSize : Z;
  minPoolSize : Z;
  maxIdleTimeMS : Z;
  closed : bool
}.

(** The handle of a client's default database. *)
Record MotorDatabase : Type := mkMotorDatabase {
  database_uri : string
}.

(** The six [create_index] calls of [_create_indexes], in source order. *)
Inductive IndexCall : Type :=
| users_email_unique           (* users.create_index("email", unique=True) *)
| users_created_at             (* users.create_index("created_at", -1) *)
| users_status_created_at      (* users.create_index([("status", 1), ("created_at", -1)]) *)
| sessions_session_id_unique   (* sessions.create_index("session_id", unique=True) *)
| sessions_user_id             (* sessions.create_index("user_id", 1) *)
| sessions_expires_at.         (* sessions.create_index("expires_at", 1) *)

#[global] Instance IndexCall_eq_dec : EqDecision IndexCall.
Proof. solve_decision. Defined.

Definition index_calls : list IndexCall :=
  [users_email_unique; users_created_at; users_status_created_at;
   sessions_session_id_unique; sessions_user_id; sessions_expires_at].

(** What the driver and the server do outside the program's control: whether
    building the client, resolving its default database or creating an index
    raises. *)
Record Driver : Type := mkDriver {
  client_fault : option PyExc;
  database_fault : option PyExc;
  index_fault : IndexCall → option PyExc
}.

Module Database.
(** The connection manager; [__init__] leaves both fields unset. *)
Record t : Type := mk {
  client : option MotorClient;
  db : option MotorDatabase
}.
Definition init : t := mk None None.
End Database.

(** The process: the global [database] instance, the indexes the store has,
    the driver's behaviour, and the world of the request handlers. *)
Record Runtime : Type := mkRuntime {
  database : Database.t;
  indexes : list IndexCall;
  driver : Driver;
  world : World
}.

Definition set_database (d : Database.t) (r : Runtime) : Runtime :=
  mkRuntime d (indexes r) (driver r) (world r).
Definition set_indexes (l : list IndexCall) (r : Runtime) : Runtime :=
  mkRuntime (database r) l (driver r) (world r).
Definition set_world (w : World) (r : Runtime) : Runtime :=
  mkRuntime (database r) (indexes r) (driver r) w.

Definition set_email_index (b : bool) (w : World) : World :=
  mkWorld (users w) b (clock w) (ticks w) (oid_source w) (oids_taken w)
          (ping w) (ops w) (stdout w) (log w).

(** Computations over the process. *)
Definition L (A : Type) : Type := Runtime → outcome A * Runtime.

#[global] Instance L_ret : MRet L := λ A a r, (Return a, r).
#[global] Instance L_bind : MBind L := λ A B f m r,
  match m r with
  | (Return a, r') => f a r'
  | (Raise e, r') => (Raise e, r')
  end.

Definition L_raise {A} (e : PyExc) : L A := λ r, (Raise e, r).

Definition L_try {A} (body : L A) (handler : PyExc → L A) : L A := λ r,
  match body r with
  | (Return a, r') => (Return a, r')
  | (Raise e, r') => handler e r'
  end.

Definition get_runtime : L Runtime := λ r, (Return r, r).

(** A computation of the handlers' world, run inside the process. *)
Definition lift {A} (m : M A) : L A := λ r,
  match m (world r) with
  | (o, w') => (o, set_world w' r)
  end.

(** [AsyncIOMotorClient(uri, maxPoolSize=..., minPoolSize=..., maxIdleTimeMS=...)] *)
Definition new_client (settings : Settings.t) : L MotorClient := λ r,
  match client_fault (driver r) with
  | Some e => (Raise e, r)
  | None =>
      (Return (mkMotorClient (Settings.mongodb_uri settings)
                 (Settings.mongodb_max_pool_size settings)
                 (Settings.mongodb_min_pool_size settings)
                 (Settings.mongodb_max_idle_time_ms settings) false), r)
  end.

(** [client.get_database()] *)
Definition client_get_database (c : MotorClient) : L MotorDatabase := λ r,
  match database_fault (driver r) with
  | Some e => (Raise e, r)
  | None => (Return (mkMotorDatabase (client_uri c)), r)
  end.

(** The store's indexes with one more; an index that exists is not built
    again. *)
Definition add_index (ix : IndexCall) (l : list IndexCall) : list IndexCall :=
  if bool_decide (ix ∈ l) then l else l ++ [ix].

(** Why the store would not build an index now, if it would not. *)
Definition refused (r : Runtime) (ix : IndexCall) : option PyExc :=
  match index_fault (driver r) ix with
  | Some e => Some e
  | None =>
      if bool_decide (ix = users_email_unique)
         && negb (bool_decide (emails_unique (users (world r))))
      then Some (DuplicateKeyError "email_1") else None
  end.

(** One [create_index] call. The store refuses to build the unique index on
    email over documents that share an email; building it makes the store
    enforce it from then on. *)
Definition create_index (ix : IndexCall) : L unit := λ r,
  match refused r ix with
  | Some e => (Raise e, r)
  | None =>
      (Return (),
       set_indexes (add_index ix (indexes r))
         (if bool_decide (ix = users_email_unique)
          then set_world (set_email_index true (world r)) r else r))
  end.

(** The calls of a list that go through before the first one is refused. *)
Fixpoint accepted (refuse : IndexCall → option PyExc) (l : list IndexCall)
  : list IndexCall :=
  match l with
  | [] => []
  | ix :: l' => match refuse ix with Some _ => [] | None => ix :: accepted refuse l' end
  end.

(** The first refusal among the calls of a list. *)
Fixpoint first_refusal (refuse : IndexCall → option PyExc) (l : list IndexCall)
  : option PyExc :=
  match l with
  | [] => None
  | ix :: l' => match refuse ix with Some e => Some e | None => first_refusal refuse l' end
  end.

(** A run of index creations over a list of calls: it stops at the first
    refusal. *)
Fixpoint create_all (l : list IndexCall) : L unit :=
  match l with
  | [] => mret ()
  | ix :: l' => create_index ix;; create_all l'
  end.

(** What stops [connect], if anything: building the client, resolving its
    default database, or the probe. *)
Definition connect_fault (r : Runtime) : option PyExc :=
  match client_fault (driver r) with
  | Some e => Some e
  | None =>
      match database_fault (driver r) with
      | Some e => Some e
      | None => ping (world r)
      end
  end.

(** The client [connect] builds from the settings. *)
Definition client_of (settings : Settings.t) : MotorClient :=
  mkMotorClient (Settings.mongodb_uri settings)
    (Settings.mongodb_max_pool_size settings)
    (Settings.mongodb_min_pool_size settings)
    (Settings.mongodb_max_idle_time_ms settings) false.

(** The entry [connect] logs before it raises again. *)
Definition connect_error (e : PyExc) : LogEntry :=
  mkLogEntry "error" "Failed to connect to MongoDB" [("error", LStr (exc_str e))].

Module database_py.
Section methods.
Context (settings : Settings.t).

(** [Database._create_indexes]; [db] is [self.db], which [connect] has set. *)
Definition _create_indexes (db : MotorDatabase) : L unit :=
  L_try
    (create_index users_email_unique;;
     create_index users_created_at;;
     create_index users_status_created_at;;
     create_index sessions_session_id_unique;;
     create_index sessions_user_id;;
     create_index sessions_expires_at;;
     lift (logger_emit "info" "Database indexes created" []))
    (λ e, lift (logger_emit "warning" "Failed to create indexes"
                  [("error", LStr (exc_str e))])).

(** [Database.connect] *)
Definition connect : L unit :=
  L_try
    (client ← new_client settings;
     r ← get_runtime;
     (λ r', (Return (), set_database (Database.mk (Some client) (Database.db (database r))) r'));;
     db ← client_get_database client;
     (λ r', (Return (), set_database (Database.mk (Some client) (Some db)) r'));;
     lift command_ping;;
     lift (logger_emit "info" "Connected to MongoDB" []);;
     _create_indexes db)
    (λ e,
       lift (logger_emit "error" "Failed to connect to MongoDB"
               [("error", LStr (exc_str e))]);;
       L_raise e).

(** [Database.disconnect] *)
Definition disconnect : L unit :=
  r ← get_runtime;
  match Database.client (database r) with
  | Some c =>
      (λ r', (Return (),
              set_database
                (Database.mk
                   (Some (mkMotorClient (client_uri c) (maxPoolSize c) (minPoolSize c)
                            (maxIdleTimeMS c) true))
                   (Database.db (database r))) r'));;
      lift (logger_emit "info" "Disconnected from MongoDB" [])
  | None => mret ()
  end.

(** [get_database]: the dependency of the services. *)
Definition get_database : L (option MotorDatabase) :=
  r ← get_runtime;
  (if Database.db (database r) is None then connect else mret ());;
  r' ← get_runtime;
  mret (Database.db (database r')).

Definition connect_database : L unit := connect.
Definition disconnect_database : L unit := disconnect.

End methods.
End database_py.

(** ** [lifespan] of [app/main.py] *)

(** How the start-up half of [lifespan] ends: the application serves, or
    [sys.exit] ends the process. *)
Inductive Startup : Type :=
| Serving
| SystemExit (code : Z).

Module lifespan.
Section lifespan.
Context (settings : Settings.t).

(** The part before [yield]. *)
Definition startup (r : Runtime) : Startup * Runtime :=
  match lift (logger_emit "info" "Starting application..." []) r with
  | (_, r1) =>
      match database_py.connect_database settings r1 with
      | (Return _, r2) =>
          (Serving,
           snd (lift (logger_emit "info" "Application started successfully" []) r2))
      | (Raise e, r2) =>
          (SystemExit 1,
           snd (lift (logger_emit "error" "Failed to start application"
                        [("error", LStr (exc_str e))]) r2))
      end
  end.

(** The part after [yield]. *)
Definition shutdown : L unit :=
  lift (logger_emit "info" "Shutting down application..." []);;
  database_py.disconnect_database;;
  lift (logger_emit "info" "Application shutdown complete" []).

End lifespan.
End lifespan.

(** ** Sample processes and further sample data *)

Definition bob_id : string := "655f00000000000000000001".
Definition bob_created : User.t :=
  User.mk bob_id "Bob" "bob@x.com" (Some 41%Z) "inactive" 4000%Z 5500%Z.
Definition bob_user : User.t :=
  User.mk bob_id "Bob" "bob@x.com" (Some 41%Z) "inactive" 4000%Z 5000%Z.
Definition ann_document : Document :=
  mkDocument (sample_oid 0) (created_dict ann 1000%Z 2000%Z).
Definition bob_document : Document :=
  mkDocument (sample_oid 1) (created_dict bob 4000%Z 5000%Z).
Definition cyd_document : Document :=
  mkDocument (sample_oid 2) (created_dict cyd 7000%Z 8000%Z).
Definition cyd_user : User.t :=
  User.mk "655f00000000000000000002" "Cyd" "cyd@x.com" None "active" 7000%Z 8000%Z.

(** Ann's document after [suspend] has been applied at clock reading 4000. *)
Definition ann_document_suspended : Document :=
  mkDocument (sample_oid 0) (set_dict suspend 4000%Z ∪ created_dict ann 1000%Z 2000%Z).

Definition null_name : UserUpdate.t := UserUpdate.mk (Some None) None None None.


Definition absent_oid : ObjectId :=
  OID xff xff xff xff xff xff xff xff xff xff xff xff.

(** Ann stored in a collection whose unique index was never built. *)
Definition world_ann_no_index : World := set_email_index false world_ann.

(** A driver and a server that refuse nothing. *)
Definition sample_driver : Driver := mkDriver None None (λ _, None).

(** A process that has not connected yet, over a store holding three
    records and no index. *)
Definition runtime_fresh : Runtime :=
  mkRuntime Database.init [] sample_driver (set_email_index false world_three).

(** The same process over a store that does not answer the probe. *)
Definition runtime_probe_down : Runtime :=
  mkRuntime Database.init [] sample_driver world_probe_down.

Definition runtime_connected : Runtime :=
  snd (database_py.connect Settings.defaults runtime_fresh).

(** * Properties *)

(** ** Identifiers *)

Lemma hex_byte_hex (b : byte) :
  hex_byte (hex_digit (Byte.to_N b / 16)) (hex_digit (Byte.to_N b mod 16)) = Some b.
Proof. destruct b; vm_compute; reflexivity. Qed.

(** [ObjectId(str(oid)) == oid] *)
Lemma ObjectId_parse_str (o : ObjectId) : ObjectId_parse (ObjectId_str o) = Some o.
Proof.
  destruct o. unfold ObjectId_parse, ObjectId_str.
  rewrite list_ascii_of_string_of_list_ascii.
  cbn [oid_bytes hex mbind list_bind byte_hex app].
  cbn [string_of_list_ascii String.length Nat.eqb fromhex].
  rewrite !hex_byte_hex. reflexivity.
Qed.

(** ** The collection as a list *)

Lemma find_id_app_new oid doc (l : list Document) :
  ¬ Exists (has_id oid) l →
  find_id oid (l ++ [mkDocument oid doc]) = Some (mkDocument oid doc).
Proof.
  intros H. unfold find_id.
  rewrite list_find_app_r.
  - cbn. rewrite decide_True by done. reflexivity.
  - apply list_find_None. by apply not_Exists_Forall; [intros x; apply _|].
Qed.

Lemma find_id_insert oid i d f (l : list Document) :
  list_find (has_id oid) l = Some (i, d) →
  find_id oid (<[i := mkDocument (doc_id d) f]> l) = Some (mkDocument (doc_id d) f).
Proof.
  intros H. apply list_find_Some in H as (Hi & Hd & Hlt).
  unfold find_id.
  assert (list_find (has_id oid) (<[i := mkDocument (doc_id d) f]> l)
          = Some (i, mkDocument (doc_id d) f)) as ->; [|done].
  apply list_find_Some. split_and!.
  - apply list_lookup_insert_eq. by eapply lookup_lt_Some.
  - exact Hd.
  - intros j y Hj Hji. rewrite list_lookup_insert_ne in Hj by lia. eauto.
Qed.

Lemma find_id_delete oid i d (l : list Document) :
  unique_ids l →
  list_find (has_id oid) l = Some (i, d) →
  find_id oid (delete i l) = None.
Proof.
  intros Hu H. apply list_find_Some in H as (Hi & Hd & _).
  unfold find_id.
  assert (list_find (has_id oid) (delete i l) = None) as ->; [|done].
  apply list_find_None, Forall_lookup. intros j y Hj Hy.
  unfold has_id in *. unfold unique_ids in Hu.
  destruct (decide (j < i)%nat).
  - rewrite list_lookup_delete_lt in Hj by done.
    assert (j = i); [|lia].
    eapply (NoDup_lookup _ j i (doc_id y) Hu); rewrite list_lookup_fmap.
    + by rewrite Hj.
    + rewrite Hi. cbn. congruence.
  - rewrite list_lookup_delete_ge in Hj by lia.
    assert (S j = i); [|lia].
    eapply (NoDup_lookup _ (S j) i (doc_id y) Hu); rewrite list_lookup_fmap.
    + by rewrite Hj.
    + rewrite Hi. cbn. congruence.
Qed.

(** ** Running the store commands and the service *)

Ltac run :=
  unfold mbind, mret, M_bind, M_ret, raise, try_except, get_world, modify,
    or_raise, issue in *; cbn [fst snd] in *.

(** The store's encoding changes nothing but the dates. *)
Lemma bson_created_dict u t1 t2 :
  bson_document (created_dict u t1 t2)
  = created_dict u (bson_datetime t1) (bson_datetime t2).
Proof.
  unfold bson_document, created_dict, UserCreate.model_dump.
  rewrite !fmap_insert, fmap_empty. by destruct (UserCreate.age u).
Qed.

Lemma bson_model_dump p :
  bson_document (UserUpdate.model_dump p) = UserUpdate.model_dump p.
Proof.
  unfold bson_document, UserUpdate.model_dump, UserUpdate.dump_field.
  destruct p as [[[n|]|] [[e|]|] [[a|]|] [[st|]|]]; cbn;
    by rewrite ?fmap_insert, fmap_empty.
Qed.

Lemma bson_set_dict p now :
  bson_document (set_dict p now) = set_dict p (bson_datetime now).
Proof.
  unfold set_dict. unfold bson_document at 1. rewrite fmap_insert.
  fold (bson_document (UserUpdate.model_dump p)). by rewrite bson_model_dump.
Qed.

Lemma insert_one_run doc w :
  let oid := oid_source w (oids_taken w) in
  let stored := bson_document doc in
  insert_one doc w =
  if bool_decide (Exists (has_id oid) (users w)) then
    (Raise (DuplicateKeyError "_id_"), after_insert doc w)
  else if email_index w
          && bool_decide (Exists (λ d, email_key (doc_fields d) = email_key stored) (users w)) then
    (Raise (DuplicateKeyError "email_1"), after_insert doc w)
  else (Return oid, set_users (users w ++ [mkDocument oid stored]) (after_insert doc w)).
Proof.
  destruct w as [us ix ck tk src tkn pg os out lg].
  unfold insert_one, after_insert. run. cbn.
  repeat case_match; reflexivity.
Qed.

Lemma update_one_run oid upd w :
  let w1 := set_ops (ops w ++ [OpUpdateOne oid upd]) w in
  update_one oid upd w =
  match list_find (has_id oid) (users w) with
  | None => (Return 0%Z, w1)
  | Some (i, d) =>
      let f := bson_document upd ∪ doc_fields d in
      if bool_decide (f = doc_fields d) then (Return 0%Z, w1)
      else if email_clash (email_index w) f (doc_fields d) (users w) then
        (Raise (DuplicateKeyError "email_1"), w1)
      else (Return 1%Z, set_users (<[i := mkDocument (doc_id d) f]> (users w)) w1)
  end.
Proof.
  destruct w as [us ix ck tk src tkn pg os out lg].
  unfold update_one. run. cbn.
  destruct (list_find _ _) as [[i d]|]; [|reflexivity].
  destruct (bool_decide (_ = doc_fields d)); [reflexivity|].
  destruct (email_clash _ _ _ _); reflexivity.
Qed.

Section service_runs.
Context (ve : string → option string).

Lemma get_user_by_id_run user_id w :
  UserService.get_user_by_id ve user_id w
  = (Return (lookup_user ve user_id (users w)), looked_up user_id w).
Proof.
  unfold UserService.get_user_by_id, lookup_user, looked_up, ObjectId_new,
    find_one_id, find_id, User_of_document.
  run.
  destruct (ObjectId_parse user_id) as [oid|]; cbn; [|done].
  destruct (list_find (has_id oid) (users w)) as [[i d]|]; cbn; [|done].
  destruct (user_of ve d); done.
Qed.

Lemma get_user_by_email_run e w :
  UserService.get_user_by_email ve e w
  = (match find_email e (users w) with
     | None => Return None
     | Some d => match user_of ve d with
                 | Some u => Return (Some u)
                 | None => Raise (ValidationError "User")
                 end
     end, set_ops (ops w ++ [OpFindOneEmail e]) w).
Proof.
  unfold UserService.get_user_by_email, find_one_email, find_email, User_of_document.
  run. cbn.
  destruct (list_find _ _) as [[i d]|]; cbn; [|done].
  destruct (user_of ve d); done.
Qed.

Lemma create_user_run u w :
  let t1 := clock w (ticks w) in
  let t2 := clock w (S (ticks w)) in
  let doc := created_dict u t1 t2 in
  let stored := created_dict u (bson_datetime t1) (bson_datetime t2) in
  let oid := oid_source w (oids_taken w) in
  let w1 := after_insert doc (set_ticks (S (S (ticks w))) w) in
  UserService.create_user ve u w =
  if bool_decide (Exists (has_id oid) (users w)) then
    (Raise (DuplicateKeyError "_id_"), w1)
  else if email_index w
          && bool_decide (Exists (λ d, email_key (doc_fields d) = email_key stored) (users w)) then
    (Raise (DuplicateKeyError "email_1"), w1)
  else
    (match User_of_dict ve (<["_id" := VStr (ObjectId_str oid)]> doc) with
     | Some x => Return x
     | None => Raise (ValidationError "User")
     end,
     set_stdout (stdout w ++ ["User created: " +:+ ObjectId_str oid +:+ ", email: "
                              +:+ UserCreate.email u])
       (set_users (users w ++ [mkDocument oid stored]) w1)).
Proof.
  destruct w as [us ix ck tk src tkn pg os out lg].
  unfold UserService.create_user, utcnow, print. run.
  rewrite insert_one_run. cbn -[bson_document].
  pose proof (bson_created_dict u (ck tk) (ck (S tk))) as E.
  unfold created_dict at 1 in E. rewrite E. unfold created_dict.
  destruct (bool_decide (Exists (has_id _) _)); [reflexivity|].
  destruct (ix && bool_decide _); [reflexivity|].
  destruct (User_of_dict _ _); reflexivity.
Qed.

Lemma update_user_invalid s p w :
  UserUpdate.model_dump p ≠ ∅ →
  ObjectId_parse s = None →
  UserService.update_user ve s p w = (Raise (InvalidId s), set_ticks (S (ticks w)) w).
Proof.
  intros H Hs. unfold UserService.update_user, ObjectId_new, utcnow.
  rewrite bool_decide_eq_false_2 by done. run. rewrite Hs. reflexivity.
Qed.

Lemma update_user_run s oid p w :
  UserUpdate.model_dump p ≠ ∅ →
  ObjectId_parse s = Some oid →
  let upd := set_dict p (clock w (ticks w)) in
  let w1 := set_ops (ops w ++ [OpUpdateOne oid upd]) (set_ticks (S (ticks w)) w) in
  UserService.update_user ve s p w =
  match list_find (has_id oid) (users w) with
  | None => (Return None, w1)
  | Some (i, d) =>
      let f := set_dict p (bson_datetime (clock w (ticks w))) ∪ doc_fields d in
      if bool_decide (f = doc_fields d) then (Return None, w1)
      else if email_clash (email_index w) f (doc_fields d) (users w) then
        (Raise (DuplicateKeyError "email_1"), w1)
      else
        let l' := <[i := mkDocument (doc_id d) f]> (users w) in
        (Return (lookup_user ve s l'),
         looked_up s (set_stdout (stdout w ++ ["User updated: " +:+ s])
                        (set_users l' w1)))
  end.
Proof.
  intros H Hs. destruct w as [us ix ck tk src tkn pg os out lg].
  unfold UserService.update_user, ObjectId_new, utcnow, print.
  rewrite bool_decide_eq_false_2 by done. run. rewrite Hs.
  cbn -[UserService.get_user_by_id].
  rewrite update_one_run. cbn -[UserService.get_user_by_id bson_document].
  pose proof (bson_set_dict p (ck tk)) as E.
  unfold set_dict at 1 in E. rewrite E. unfold set_dict.
  destruct (list_find _ _) as [[i d]|]; [|reflexivity].
  cbn -[UserService.get_user_by_id].
  destruct (bool_decide (_ = doc_fields d)); [reflexivity|].
  destruct (email_clash _ _ _ _); [reflexivity|].
  cbn -[UserService.get_user_by_id].
  change (bool_decide (1%Z ≠ 0%Z)) with true. cbv beta iota.
  rewrite get_user_by_id_run. reflexivity.
Qed.

Lemma delete_user_invalid s w :
  ObjectId_parse s = None →
  UserService.delete_user s w = (Raise (InvalidId s), w).
Proof.
  intros Hs. unfold UserService.delete_user, ObjectId_new. run. rewrite Hs. reflexivity.
Qed.

Lemma delete_user_run s oid w :
  ObjectId_parse s = Some oid →
  let w1 := set_ops (ops w ++ [OpDeleteOne oid]) w in
  UserService.delete_user s w =
  match list_find (has_id oid) (users w) with
  | None => (Return false, w1)
  | Some (i, _) =>
      (Return true,
       set_stdout (stdout w ++ ["User deleted: " +:+ s])
         (set_users (delete i (users w)) w1))
  end.
Proof.
  intros Hs. destruct w as [us ix ck tk src tkn pg os out lg].
  unfold UserService.delete_user, ObjectId_new, delete_one, print. run.
  rewrite Hs. cbn.
  destruct (list_find _ _) as [[i d]|]; reflexivity.
Qed.

(** A lookup leaves the collection, the clock and the generator alone. *)
Lemma looked_up_users s w : users (looked_up s w) = users w.
Proof. unfold looked_up. by destruct (ObjectId_parse s), w. Qed.

Lemma looked_up_ticks s w : ticks (looked_up s w) = ticks w.
Proof. unfold looked_up. by destruct (ObjectId_parse s), w. Qed.

Lemma looked_up_clock s w : clock (looked_up s w) = clock w.
Proof. unfold looked_up. by destruct (ObjectId_parse s), w. Qed.

Lemma looked_up_ops s w :
  ops (looked_up s w)
  = (ops w ++ from_option (λ oid, [OpFindOneId oid]) [] (ObjectId_parse s))%list.
Proof.
  unfold looked_up. destruct (ObjectId_parse s), w; cbn; [done|].
  by rewrite app_nil_r.
Qed.

End service_runs.

(** ** The monad's equations *)

Lemma M_bind_run {A B} (m : M A) (f : A → M B) (w : World) :
  (m ≫= f) w
  = match m w with
    | (Return a, w') => f a w'
    | (Raise e, w') => (Raise e, w')
    end.
Proof. reflexivity. Qed.

Lemma M_ret_run {A} (a : A) (w : World) : (mret a : M A) w = (Return a, w).
Proof. reflexivity. Qed.

(** ** The router, and the claims *)

Section claims.
Context (ve : string → option string).

Lemma routers_get_user_run s w :
  routers.get_user ve s w =
  (match lookup_user ve s (users w) with
   | Some u => Return u
   | None => Raise (HTTPException 404 "User not found")
   end, looked_up s w).
Proof.
  unfold routers.get_user. unfold mbind, M_bind. rewrite get_user_by_id_run.
  by destruct (lookup_user _ _ _).
Qed.

Lemma lookup_user_invalid s l : ObjectId_parse s = None → lookup_user ve s l = None.
Proof. intros H. unfold lookup_user. by rewrite H. Qed.

Lemma looked_up_invalid s w : ObjectId_parse s = None → looked_up s w = w.
Proof. intros H. unfold looked_up. by rewrite H. Qed.

(** Claim C3. An identifier that is not in the store's identifier format
    makes [get_user_by_id] return [None] without raising and without touching
    the world; the router answers it with 404 "User not found". *)
Theorem get_user_by_id_malformed_id (user_id : string) (w : World) :
  ObjectId_parse user_id = None →
  UserService.get_user_by_id ve user_id w = (Return None, w)
  ∧ routers.get_user ve user_id w = (Raise (HTTPException 404 "User not found"), w)
  ∧ exception_middleware (serve 200 BUser (routers.get_user ve user_id)) w
    = (Return (mkResponse 404 (BDetail "User not found")), w).
Proof.
  intros H.
  assert (routers.get_user ve user_id w
          = (Raise (HTTPException 404 "User not found"), w)) as Hr.
  { rewrite routers_get_user_run, lookup_user_invalid, looked_up_invalid; done. }
  split_and!.
  - rewrite get_user_by_id_run, lookup_user_invalid, looked_up_invalid; done.
  - exact Hr.
  - unfold exception_middleware, serve, try_except, mbind, M_bind. by rewrite Hr.
Qed.

Lemma routers_update_user_run s p w :
  routers.update_user ve s p w =
  match lookup_user ve s (users w) with
  | None => (Raise (HTTPException 404 "User not found"), looked_up s w)
  | Some _ =>
      match UserService.update_user ve s p (looked_up s w) with
      | (Return (Some u), w') => (Return u, w')
      | (Return None, w') => (Raise (HTTPException 500 "Failed to update user"), w')
      | (Raise e, w') => (Raise e, w')
      end
  end.
Proof.
  unfold routers.update_user. unfold mbind at 1, M_bind at 1.
  rewrite get_user_by_id_run.
  destruct (lookup_user _ _ _); [|done].
  unfold mbind, M_bind.
  destruct (UserService.update_user _ _ _ _) as [[[u|]|e] w']; done.
Qed.

Lemma routers_delete_user_run s w :
  routers.delete_user ve s w =
  match lookup_user ve s (users w) with
  | None => (Raise (HTTPException 404 "User not found"), looked_up s w)
  | Some _ =>
      match UserService.delete_user s (looked_up s w) with
      | (Return true, w') => (Return (SuccessResponse.mk "User deleted successfully"), w')
      | (Return false, w') => (Raise (HTTPException 500 "Failed to delete user"), w')
      | (Raise e, w') => (Raise e, w')
      end
  end.
Proof.
  unfold routers.delete_user. unfold mbind at 1, M_bind at 1.
  rewrite get_user_by_id_run.
  destruct (lookup_user _ _ _); [|done].
  unfold mbind, M_bind.
  destruct (UserService.delete_user _ _) as [[[|]|e] w']; done.
Qed.

(** Claim C10. For a malformed identifier the routes for PUT and DELETE stop
    at their existence check: they raise the 404 [HTTPException] and leave the
    world exactly as it was, so no store command is issued and no clock
    reading is taken. The service methods themselves, called with such an
    identifier, raise [InvalidId] from the unguarded conversion. *)
Theorem malformed_id_stops_at_router (user_id : string) (user_data : UserUpdate.t) (w : World) :
  ObjectId_parse user_id = None →
  routers.update_user ve user_id user_data w
    = (Raise (HTTPException 404 "User not found"), w)
  ∧ routers.delete_user ve user_id w
    = (Raise (HTTPException 404 "User not found"), w)
  ∧ (UserUpdate.model_dump user_data ≠ ∅ →
     result (UserService.update_user ve user_id user_data w) = Raise (InvalidId user_id))
  ∧ result (UserService.delete_user user_id w) = Raise (InvalidId user_id).
Proof.
  intros H. split_and!.
  - rewrite routers_update_user_run, lookup_user_invalid, looked_up_invalid; done.
  - rewrite routers_delete_user_run, lookup_user_invalid, looked_up_invalid; done.
  - intros Hne. by rewrite update_user_invalid.
  - by rewrite delete_user_invalid.
Qed.

Lemma issued_app {A} w (r : outcome A * World) l :
  ops (world_after r) = (ops w ++ l)%list → issued w r = l.
Proof. intros H. unfold issued. rewrite H. apply drop_app_length. Qed.

Lemma update_user_empty s w :
  UserService.update_user ve s UserUpdate.empty w = UserService.get_user_by_id ve s w.
Proof. reflexivity. Qed.

(** Claim C5. For an existing record, an update with no field set returns
    the current record, leaves the collection (and with it [updated_at]) as it
    was, takes no clock reading and issues no write command; the same holds
    through the router. *)
Theorem update_user_empty_patch (user_id : string) (u : User.t) (w : World) :
  result (UserService.get_user_by_id ve user_id w) = Return (Some u) →
  let r := UserService.update_user ve user_id UserUpdate.empty w in
  let r' := routers.update_user ve user_id UserUpdate.empty w in
  result r = Return (Some u)
  ∧ users (world_after r) = users w
  ∧ ticks (world_after r) = ticks w
  ∧ no_write (issued w r)
  ∧ result r' = Return u
  ∧ users (world_after r') = users w
  ∧ ticks (world_after r') = ticks w
  ∧ no_write (issued w r').
Proof.
  intros H r r'. rewrite get_user_by_id_run in H. cbn in H. injection H as Hu.
  assert (r = (Return (Some u), looked_up user_id w)) as ->.
  { subst r. by rewrite update_user_empty, get_user_by_id_run, Hu. }
  assert (r' = (Return u, looked_up user_id (looked_up user_id w))) as ->.
  { subst r'. rewrite routers_update_user_run, Hu.
    by rewrite update_user_empty, get_user_by_id_run, looked_up_users, Hu. }
  cbn. split_and!; try done.
  - apply looked_up_users.
  - apply looked_up_ticks.
  - erewrite issued_app by apply looked_up_ops.
    destruct (ObjectId_parse user_id); repeat constructor.
  - by rewrite !looked_up_users.
  - by rewrite !looked_up_ticks.
  - erewrite issued_app.
    2:{ cbn. rewrite !looked_up_ops, <- app_assoc. reflexivity. }
    destruct (ObjectId_parse user_id); repeat constructor.
Qed.

Lemma lookup_user_Some s l u :
  lookup_user ve s l = Some u →
  ∃ oid i d, ObjectId_parse s = Some oid ∧ list_find (has_id oid) l = Some (i, d)
             ∧ user_of ve d = Some u.
Proof.
  unfold lookup_user, find_id. intros H.
  destruct (ObjectId_parse s) as [oid|]; [|done]. cbn in H.
  destruct (list_find (has_id oid) l) as [[i d]|] eqn:Hf; [|done]. cbn in H.
  by exists oid, i, d.
Qed.

(** Claim C9. When the identifier does not resolve to a record, the delete
    route raises 404 and the collection is unchanged. When it resolves, the
    route confirms the deletion, the document is removed from the collection,
    and a following lookup of the identifier finds nothing (404 through the
    router). *)
Theorem delete_user_not_found_or_removed (user_id : string) (w : World) :
  let r := routers.delete_user ve user_id w in
  (result (UserService.get_user_by_id ve user_id w) = Return None →
     result r = Raise (HTTPException 404 "User not found")
     ∧ users (world_after r) = users w
     ∧ no_write (issued w r))
  ∧ (∀ u, result (UserService.get_user_by_id ve user_id w) = Return (Some u) →
     unique_ids (users w) →
     result r = Return (SuccessResponse.mk "User deleted successfully")
     ∧ (∃ i d, users w !! i = Some d ∧ ObjectId_parse user_id = Some (doc_id d)
               ∧ users (world_after r) = delete i (users w))
     ∧ result (UserService.get_user_by_id ve user_id (world_after r)) = Return None
     ∧ result (routers.get_user ve user_id (world_after r))
       = Raise (HTTPException 404 "User not found")).
Proof.
  intros r. subst r. rewrite routers_delete_user_run, get_user_by_id_run. cbn [result fst].
  split.
  - intros [= ->]. cbn. split_and!; try done.
    + apply looked_up_users.
    + erewrite issued_app by apply looked_up_ops.
      destruct (ObjectId_parse user_id); repeat constructor.
  - intros u [= Hu] Huniq. rewrite Hu.
    destruct (lookup_user_Some _ _ _ Hu) as (oid & i & d & Hs & Hf & _).
    rewrite (delete_user_run _ oid) by done. rewrite looked_up_users, Hf.
    cbn [result world_after fst snd].
    assert (lookup_user ve user_id (delete i (users w)) = None) as Hgone.
    { unfold lookup_user. rewrite Hs. cbn. by erewrite find_id_delete. }
    apply list_find_Some in Hf as Hf'. destruct Hf' as (Hi & Hd & _).
    split_and!.
    + done.
    + exists i, d. split_and!; [done| by rewrite Hs, <- Hd |].
      by destruct w.
    + rewrite get_user_by_id_run. cbn. by rewrite Hgone.
    + rewrite routers_get_user_run. cbn. by rewrite Hgone.
Qed.

Lemma User_of_created u t1 t2 s :
  UserCreate_valid ve u = true →
  User_of_dict ve (<["_id" := VStr s]> (created_dict u t1 t2))
  = Some (User.mk s (UserCreate.name u) (UserCreate.email u) (UserCreate.age u)
            (UserCreate.status u) t1 t2).
Proof.
  unfold UserCreate_valid. rewrite !andb_true_iff, bool_decide_eq_true.
  intros [[[Hn He] Ha] Hs].
  unfold User_of_dict, created_dict, UserCreate.model_dump.
  simplify_map_eq. rewrite Hn, He, Hs. cbn.
  destruct (UserCreate.age u) as [a|]; cbn in *; try rewrite Ha; reflexivity.
Qed.

Lemma email_key_created u t1 t2 :
  email_key (created_dict u t1 t2) = VStr (UserCreate.email u).
Proof. unfold email_key, created_dict, UserCreate.model_dump. by simplify_map_eq. Qed.

Lemma email_key_has_email e d :
  email_key (doc_fields d) = VStr e ↔ has_email e d.
Proof.
  unfold email_key, has_email.
  destruct (doc_fields d !! "email") as [v|]; cbn; split; congruence.
Qed.

Lemma routers_create_user_run u w :
  let e := UserCreate.email u in
  let w1 := set_ops (ops w ++ [OpFindOneEmail e]) w in
  routers.create_user ve u w =
  match find_email e (users w) with
  | Some d =>
      (match user_of ve d with
       | Some _ => Raise (HTTPException 409 "User with this email already exists")
       | None => Raise (ValidationError "User")
       end, w1)
  | None => UserService.create_user ve u w1
  end.
Proof.
  cbn zeta. unfold routers.create_user. unfold mbind, M_bind.
  rewrite get_user_by_email_run.
  destruct (find_email _ _) as [d|]; [|done].
  by destruct (user_of ve d).
Qed.


Lemma User_of_dict_Some d u :
  User_of_dict ve d = Some u →
  validate_id (d !! "_id") = Some (User.id u)
  ∧ validate_name (d !! "name") = Some (User.name u)
  ∧ validate_email_field ve (d !! "email") = Some (User.email u)
  ∧ validate_age (d !! "age") = Some (User.age u)
  ∧ validate_status (d !! "status") = Some (User.status u)
  ∧ validate_datetime (d !! "created_at") = Some (User.created_at u)
  ∧ validate_datetime (d !! "updated_at") = Some (User.updated_at u).
Proof.
  unfold User_of_dict. intros H.
  destruct (validate_id _); [|done].
  destruct (validate_name _); [|done].
  destruct (validate_email_field _ _); [|done].
  destruct (validate_age _); [|done].
  destruct (validate_status _); [|done].
  destruct (validate_datetime (d !! "created_at")); [|done].
  destruct (validate_datetime (d !! "updated_at")); [|done].
  cbn in H. injection H as <-. done.
Qed.

(** The dates of a created dictionary pass through [User] as they are, and
    the other fields do not depend on them. *)
Lemma User_of_created_dates user_data t1 t2 t1' t2' s u :
  User_of_dict ve (<["_id" := VStr s]> (created_dict user_data t1 t2)) = Some u →
  User.created_at u = t1 ∧ User.updated_at u = t2
  ∧ User_of_dict ve (<["_id" := VStr s]> (created_dict user_data t1' t2'))
    = Some (User.mk (User.id u) (User.name u) (User.email u) (User.age u)
              (User.status u) t1' t2').
Proof.
  unfold User_of_dict, created_dict, UserCreate.model_dump. simplify_map_eq.
  intros H.
  destruct (name_ok _); [|done].
  destruct (ve _) as [e|]; [|done].
  cbn in H |- *.
  destruct (UserCreate.age user_data) as [a|]; cbn in H |- *;
    [destruct (age_ok a); [|done]|];
    (destruct (status_ok _); [|done]);
    cbn in H |- *; by injection H as <-.
Qed.

(** Claim C4, amended. After a successful create, a lookup of the returned
    identifier returns the record that create returned with its two dates cut
    down to the millisecond, as the store keeps them: the identifier, name,
    email, age and status are the same. The dates of the created record are
    the two successive clock readings create took. The record read back is
    the created record exactly when both readings are whole milliseconds,
    and its two dates are equal exactly when the two readings fall in the
    same millisecond. *)
Theorem create_then_get_by_id (user_data : UserCreate.t) (u : User.t) (w : World) :
  let r := UserService.create_user ve user_data w in
  let t1 := clock w (ticks w) in
  let t2 := clock w (S (ticks w)) in
  result r = Return u →
  result (UserService.get_user_by_id ve (User.id u) (world_after r))
  = Return (Some (read_back u))
  ∧ User.created_at u = t1
  ∧ User.updated_at u = t2
  ∧ (read_back u = u ↔ (t1 `mod` 1000 = 0 ∧ t2 `mod` 1000 = 0)%Z)
  ∧ (User.created_at (read_back u) = User.updated_at (read_back u)
     ↔ (t1 `div` 1000 = t2 `div` 1000)%Z).
Proof.
  intros r t1 t2 Hr. subst r. rewrite create_user_run in Hr |- *.
  destruct (bool_decide (Exists (has_id _) _)) eqn:Hfresh; [done|].
  destruct (email_index w && _); [done|].
  apply bool_decide_eq_false in Hfresh.
  cbn [result world_after fst snd] in Hr |- *.
  destruct (User_of_dict _ _) as [u'|] eqn:Hu; [|done].
  injection Hr as ->. fold t1 t2 in Hu |- *.
  pose proof (User_of_dict_Some _ _ Hu) as (Hid & _).
  rewrite lookup_insert_eq in Hid. cbn in Hid. injection Hid as Hid.
  destruct (User_of_created_dates _ _ _ (bson_datetime t1) (bson_datetime t2) _ _ Hu)
    as (Hc & Hm & Hback).
  assert (read_back u
          = User.mk (User.id u) (User.name u) (User.email u) (User.age u)
              (User.status u) (bson_datetime t1) (bson_datetime t2)) as Hrb.
  { unfold read_back. by rewrite Hc, Hm. }
  split_and!; [|done|done| |].
  - rewrite get_user_by_id_run. cbn [result fst]. f_equal.
    replace (users _) with
      (users w ++ [mkDocument (oid_source w (oids_taken w))
                     (created_dict user_data (bson_datetime t1) (bson_datetime t2))])
      by (by destruct w).
    unfold lookup_user. rewrite <- Hid, ObjectId_parse_str. cbn.
    rewrite find_id_app_new by done. cbn.
    unfold user_of, Document_dict. cbn [doc_id doc_fields].
    by rewrite Hback, Hrb.
  - rewrite Hrb. unfold bson_datetime. destruct u as [i n e a st c m]. cbn in *. subst c m.
    pose proof (Z.div_mod t1 1000 ltac:(lia)). pose proof (Z.div_mod t2 1000 ltac:(lia)).
    split.
    + intros [= E1 E2]. lia.
    + intros [E1 E2]. f_equal; lia.
  - rewrite Hrb. cbn. unfold bson_datetime. lia.
Qed.

Lemma model_dump_lookup p :
  UserUpdate.model_dump p !! "name" = from_option VStr VNull <$> UserUpdate.name p
  ∧ UserUpdate.model_dump p !! "email" = from_option VStr VNull <$> UserUpdate.email p
  ∧ UserUpdate.model_dump p !! "age" = from_option VInt VNull <$> UserUpdate.age p
  ∧ UserUpdate.model_dump p !! "status" = from_option VStr VNull <$> UserUpdate.status p
  ∧ UserUpdate.model_dump p !! "created_at" = None
  ∧ UserUpdate.model_dump p !! "updated_at" = None
  ∧ UserUpdate.model_dump p !! "_id" = None.
Proof.
  destruct p as [[n|] [e|] [a|] [st|]];
    unfold UserUpdate.model_dump, UserUpdate.dump_field; cbn;
    by simplify_map_eq.
Qed.

Lemma set_dict_lookup p now k :
  set_dict p now !! k
  = if decide (k = "updated_at") then Some (VTime now) else UserUpdate.model_dump p !! k.
Proof.
  unfold set_dict. case_decide as Hk.
  - subst. by rewrite lookup_insert_eq.
  - by rewrite lookup_insert_ne.
Qed.

Lemma patched_lookup p now (f : gmap string value) k :
  (set_dict p now ∪ f) !! k
  = match set_dict p now !! k with Some v => Some v | None => f !! k end.
Proof.
  destruct (set_dict p now !! k) as [v|] eqn:H.
  - by apply lookup_union_Some_l.
  - by rewrite lookup_union_r.
Qed.

Lemma Document_dict_id d : Document_dict d !! "_id" = Some (VStr (ObjectId_str (doc_id d))).
Proof. unfold Document_dict. by rewrite lookup_insert_eq. Qed.

Lemma Document_dict_field d k : k ≠ "_id" → Document_dict d !! k = doc_fields d !! k.
Proof. intros H. unfold Document_dict. by rewrite lookup_insert_ne. Qed.

(** A patch that changes a field changes the document. *)
Lemma changes_a_field_modifies p now d :
  changes_a_field p d → set_dict p now ∪ doc_fields d ≠ doc_fields d.
Proof.
  intros (k & v & Hk & Hd) E. apply Hd. rewrite <- E.
  rewrite patched_lookup, set_dict_lookup.
  case_decide as Hu; [|by rewrite Hk].
  subst k. destruct (model_dump_lookup p) as (_ & _ & _ & _ & _ & Hm & _). congruence.
Qed.

(** A valid patch that nulls no required field leaves a valid record a valid
    record. *)
Lemma user_of_patched p now d u0 :
  user_of ve d = Some u0 →
  UserUpdate_valid ve p = true → keeps_required p →
  is_Some (user_of ve (mkDocument (doc_id d) (set_dict p now ∪ doc_fields d))).
Proof.
  intros Hu0 Hv (Kn & Ke & Ks).
  unfold UserUpdate_valid in Hv. rewrite !andb_true_iff in Hv.
  destruct Hv as [[[Pn Pe] Pa] Ps].
  apply User_of_dict_Some in Hu0 as (Vid & Vn & Ve & Va & Vs & Vc & Vm).
  rewrite Document_dict_field in Vn, Ve, Va, Vs, Vc, Vm by done.
  pose proof (model_dump_lookup p) as (Dn & De & Da & Ds & Dc & _ & _).
  set (D := Document_dict (mkDocument (doc_id d) (set_dict p now ∪ doc_fields d))).
  assert (∀ k, k ≠ "_id" → k ≠ "updated_at" →
            D !! k = match UserUpdate.model_dump p !! k with
                     | Some v => Some v
                     | None => doc_fields d !! k
                     end) as HD.
  { intros k H1 H2. unfold D. rewrite Document_dict_field by done. cbn [doc_fields].
    rewrite patched_lookup, set_dict_lookup. by rewrite decide_False. }
  assert (is_Some (validate_name (D !! "name"))) as [n Hn].
  { rewrite HD, Dn by done. destruct (UserUpdate.name p) as [[v|]|]; cbn in *; [|done|eauto].
    rewrite Pn. eauto. }
  assert (is_Some (validate_email_field ve (D !! "email"))) as [e He].
  { rewrite HD, De by done. destruct (UserUpdate.email p) as [[v|]|]; cbn in *; [|done|eauto].
    apply bool_decide_eq_true in Pe. rewrite Pe. eauto. }
  assert (is_Some (validate_age (D !! "age"))) as [a Ha].
  { rewrite HD, Da by done. destruct (UserUpdate.age p) as [[v|]|]; cbn in *; [|eauto..].
    rewrite Pa. eauto. }
  assert (is_Some (validate_status (D !! "status"))) as [st Hst].
  { rewrite HD, Ds by done. destruct (UserUpdate.status p) as [[v|]|]; cbn in *; [|done|eauto].
    rewrite Ps. eauto. }
  assert (validate_datetime (D !! "created_at") = Some (User.created_at u0)) as Hc.
  { rewrite HD, Dc by done. done. }
  assert (validate_datetime (D !! "updated_at") = Some now) as Hm.
  { unfold D. rewrite Document_dict_field by done. cbn [doc_fields].
    rewrite patched_lookup, set_dict_lookup. by rewrite decide_True. }
  assert (validate_id (D !! "_id") = Some (ObjectId_str (doc_id d))) as Hid.
  { unfold D. by rewrite Document_dict_id. }
  unfold user_of, User_of_dict. fold D.
  rewrite Hid, Hn, He, Ha, Hst, Hc, Hm. cbn. eauto.
Qed.

(** Claim C6, amended. Take an existing record, the document [d] it is read
    from, and a patch that sets at least one field. The document [f] that the
    update writes differs from [d] only in the fields the patch sets and in
    [updated_at], which is the clock reading taken by the update, cut down to
    the millisecond. The collection is left as it was or has [f] in place of
    [d]. When the patch changes a field and the unique index does not refuse
    the write, [f] is written and the update returns the record read back
    from it, which exists when the patch is valid and nulls no required
    field. A returned record carries the patch's values in the fields the
    patch sets and the prior values in the others, and its [updated_at] is
    later than the prior one whenever the reading is at least a millisecond
    later than it. *)
Theorem update_user_patch (user_id : string) (p : UserUpdate.t) (u0 : User.t) (w : World)
    (oid : ObjectId) (i : nat) (d : Document) :
  result (UserService.get_user_by_id ve user_id w) = Return (Some u0) →
  ObjectId_parse user_id = Some oid →
  list_find (has_id oid) (users w) = Some (i, d) →
  UserUpdate.model_dump p ≠ ∅ →
  let r := UserService.update_user ve user_id p w in
  let now := clock w (ticks w) in
  let f := set_dict p (bson_datetime now) ∪ doc_fields d in
  (∀ k, UserUpdate.model_dump p !! k = None → k ≠ "updated_at" →
        f !! k = doc_fields d !! k)
  ∧ (∀ k v, UserUpdate.model_dump p !! k = Some v → f !! k = Some v)
  ∧ f !! "updated_at" = Some (VTime (bson_datetime now))
  ∧ (users (world_after r) = users w
     ∨ users (world_after r) = <[i := mkDocument oid f]> (users w))
  ∧ (changes_a_field p d →
     email_clash (email_index w) f (doc_fields d) (users w) = false →
       users (world_after r) = <[i := mkDocument oid f]> (users w)
       ∧ result r = Return (user_of ve (mkDocument oid f))
       ∧ (UserUpdate_valid ve p = true → keeps_required p →
          ∃ u, result r = Return (Some u)))
  ∧ (∀ u, result r = Return (Some u) →
       users (world_after r) = <[i := mkDocument oid f]> (users w)
       ∧ User.id u = User.id u0
       ∧ User.created_at u = User.created_at u0
       ∧ (UserUpdate.name p = None → User.name u = User.name u0)
       ∧ (UserUpdate.email p = None → User.email u = User.email u0)
       ∧ (UserUpdate.age p = None → User.age u = User.age u0)
       ∧ (UserUpdate.status p = None → User.status u = User.status u0)
       ∧ (∀ v, UserUpdate.name p = Some (Some v) → User.name u = v)
       ∧ (∀ v, UserUpdate.email p = Some (Some v) → ve v = Some (User.email u))
       ∧ (∀ v, UserUpdate.age p = Some v → User.age u = v)
       ∧ (∀ v, UserUpdate.status p = Some (Some v) → User.status u = v)
       ∧ User.updated_at u = bson_datetime now
       ∧ (User.updated_at u0 + 1000 ≤ now → User.updated_at u0 < User.updated_at u)%Z).
Proof.
  intros H0 Hs Hf Hne r now f. rewrite get_user_by_id_run in H0. cbn in H0.
  injection H0 as H0.
  assert (user_of ve d = Some u0) as Hu0.
  { unfold lookup_user, find_id in H0. rewrite Hs in H0. cbn in H0.
    rewrite Hf in H0. exact H0. }
  apply list_find_Some in Hf as Hf'. destruct Hf' as (Hi & Hd & _).
  unfold has_id in Hd.
  pose proof (model_dump_lookup p) as (Dn & De & Da & Ds & Dc & Dm & _).
  assert (r = match bool_decide (f = doc_fields d) with
              | true => (Return None,
                         set_ops (ops w ++ [OpUpdateOne oid (set_dict p now)])
                           (set_ticks (S (ticks w)) w))
              | false =>
                  if email_clash (email_index w) f (doc_fields d) (users w) then
                    (Raise (DuplicateKeyError "email_1"),
                     set_ops (ops w ++ [OpUpdateOne oid (set_dict p now)])
                       (set_ticks (S (ticks w)) w))
                  else
                    (Return (user_of ve (mkDocument oid f)),
                     looked_up user_id
                       (set_stdout (stdout w ++ ["User updated: " +:+ user_id])
                          (set_users (<[i := mkDocument oid f]> (users w))
                             (set_ops (ops w ++ [OpUpdateOne oid (set_dict p now)])
                                (set_ticks (S (ticks w)) w)))))
              end) as Hrun.
  { subst r. rewrite (update_user_run ve user_id oid) by done. rewrite Hf. fold now.
    cbn zeta. fold f. destruct (bool_decide (f = doc_fields d)); [done|].
    destruct (email_clash _ _ _ _); [done|]. rewrite Hd. f_equal. f_equal.
    pose proof (find_id_insert oid i d f (users w) Hf) as E. rewrite Hd in E.
    unfold lookup_user. rewrite Hs. cbn. by rewrite E. }
  clearbody r. subst r.
  split_and!.
  - intros k Hk Hku. subst f. rewrite patched_lookup, set_dict_lookup.
    rewrite decide_False by done. by rewrite Hk.
  - intros k v Hk. subst f. rewrite patched_lookup, set_dict_lookup.
    case_decide as Hu; [congruence|]. by rewrite Hk.
  - subst f. rewrite patched_lookup, set_dict_lookup. by rewrite decide_True.
  - destruct (bool_decide (f = doc_fields d)); [left; by destruct w|].
    destruct (email_clash _ _ _ _); [left; by destruct w|].
    right. cbn. rewrite looked_up_users. by destruct w.
  - intros Hch Hclash. rewrite Hclash.
    rewrite bool_decide_eq_false_2 by (by apply changes_a_field_modifies).
    cbn [result world_after fst snd]. split_and!.
    + rewrite looked_up_users. by destruct w.
    + done.
    + intros Hv Hk. rewrite <- Hd.
      destruct (user_of_patched p (bson_datetime now) d u0 Hu0 Hv Hk) as [u Hu].
      exists u. fold f in Hu. by rewrite Hu.
  - intros u Hr.
    destruct (bool_decide (f = doc_fields d)); [done|].
    destruct (email_clash _ _ _ _); [done|].
    cbn [result world_after fst snd] in Hr |- *. injection Hr as Hr.
    split; [rewrite looked_up_users; by destruct w|].
    apply User_of_dict_Some in Hr as (Uid & Un & Ue & Ua & Us & Uc & Um).
    apply User_of_dict_Some in Hu0 as (Vid & Vn & Ve & Va & Vs & Vc & Vm).
    rewrite Document_dict_id in Uid, Vid.
    rewrite Document_dict_field in Un, Ue, Ua, Us, Uc, Um, Vn, Ve, Va, Vs, Vc, Vm by done.
    cbn [doc_id doc_fields] in *.
    subst f. rewrite patched_lookup, set_dict_lookup in Un, Ue, Ua, Us, Uc, Um.
    rewrite decide_False in Un by done. rewrite decide_False in Ue by done.
    rewrite decide_False in Ua by done. rewrite decide_False in Us by done.
    rewrite decide_False in Uc by done.
    rewrite decide_True in Um by done.
    rewrite Dn in Un. rewrite De in Ue. rewrite Da in Ua. rewrite Ds in Us.
    rewrite Dc in Uc.
    assert (User.updated_at u = bson_datetime now) as Hnow by (cbn in Um; congruence).
    split_and!.
    + cbn in Uid, Vid. congruence.
    + congruence.
    + intros E. rewrite E in Un. cbn in Un. congruence.
    + intros E. rewrite E in Ue. cbn in Ue. congruence.
    + intros E. rewrite E in Ua. cbn in Ua. congruence.
    + intros E. rewrite E in Us. cbn in Us. congruence.
    + intros v E. rewrite E in Un. cbn in Un. by destruct (name_ok v); simplify_eq.
    + intros v E. rewrite E in Ue. by cbn in Ue.
    + intros v E. rewrite E in Ua. cbn in Ua.
      destruct v as [a|]; cbn in Ua; [destruct (age_ok a)|]; by simplify_eq.
    + intros v E. rewrite E in Us. cbn in Us. by destruct (status_ok v); simplify_eq.
    + done.
    + rewrite Hnow. unfold bson_datetime. intros Hlt.
      pose proof (Z.div_mod now 1000 ltac:(lia)).
      pose proof (Z.mod_pos_bound now 1000 ltac:(lia)). lia.
Qed.


Lemma mapM_User_of_document (l : list Document) (w : World) :
  store_valid ve l →
  ∃ us, mapM (User_of_document ve) l w = (Return us, w)
        ∧ Forall2 (λ d u, user_of ve d = Some u) l us.
Proof.
  induction 1 as [|d l [u Hu] _ (us & IH & Hall)].
  - by exists [].
  - exists (u :: us). split; [|by constructor].
    change (mapM (User_of_document ve) (d :: l))
      with (y ← User_of_document ve d; k ← mapM (User_of_document ve) l; mret (y :: k)).
    unfold mbind, M_bind in IH |- *. unfold User_of_document at 1. rewrite Hu. cbn. by rewrite IH.
Qed.



(** ** The invariants of the collection *)

(** Extra X20. A successful [UserService.create_user] keeps the collection a
    list of valid user records with unique identifiers. *)
Lemma create_user_keeps_invariants (user_data : UserCreate.t) (u : User.t) (w : World) :
  let r := UserService.create_user ve user_data w in
  result r = Return u →
  store_valid ve (users w) → unique_ids (users w) →
  store_valid ve (users (world_after r)) ∧ unique_ids (users (world_after r)).
Proof.
  intros r Hr Hv Hu. subst r. rewrite create_user_run in Hr |- *.
  destruct (bool_decide (Exists (has_id _) _)) eqn:Hfresh; [done|].
  destruct (email_index w && _); [done|].
  apply bool_decide_eq_false in Hfresh.
  cbn [result world_after fst snd] in Hr |- *.
  destruct (User_of_dict _ _) as [u'|] eqn:Hu'; [|done].
  replace (users _) with
    (users w ++ [mkDocument (oid_source w (oids_taken w))
                   (created_dict user_data (bson_datetime (clock w (ticks w)))
                      (bson_datetime (clock w (S (ticks w)))))])
    by (by destruct w).
  split.
  - apply Forall_app. split; [done|]. constructor; [|constructor].
    unfold user_of, Document_dict. cbn [doc_id doc_fields].
    destruct (User_of_created_dates _ _ _ (bson_datetime (clock w (ticks w)))
                (bson_datetime (clock w (S (ticks w)))) _ _ Hu') as (_ & _ & ->).
    done.
  - unfold unique_ids in *. rewrite fmap_app. apply NoDup_app. split_and!; [done| |].
    + intros o Ho Hnew. cbn in Hnew. apply list_elem_of_singleton in Hnew as ->.
      apply Hfresh, Exists_exists.
      apply list_elem_of_fmap in Ho as (d & Hd & Hin). by exists d.
    + cbn. apply NoDup_singleton.
Qed.

(** Extra X21. [UserService.delete_user] keeps the collection a list of valid
    user records with unique identifiers. *)
Lemma delete_user_keeps_invariants (user_id : string) (w : World) :
  let r := UserService.delete_user user_id w in
  store_valid ve (users w) → unique_ids (users w) →
  store_valid ve (users (world_after r)) ∧ unique_ids (users (world_after r)).
Proof.
  intros r Hv Hu. subst r.
  destruct (ObjectId_parse user_id) as [oid|] eqn:Hs.
  2:{ by rewrite delete_user_invalid. }
  rewrite (delete_user_run _ oid) by done.
  destruct (list_find _ _) as [[i d]|]; cbn [world_after snd].
  2:{ by replace (users _) with (users w) by (by destruct w). }
  replace (users _) with (delete i (users w)) by (by destruct w).
  split.
  - unfold store_valid. by apply Forall_delete.
  - unfold unique_ids in *. rewrite list_fmap_delete.
    exact (sublist_NoDup _ _ Hu (sublist_delete _ _)).
Qed.
End claims.


(** Claim C8. Whatever exception the downstream handling raises, the
    fault-containment stage answers with status 500 and the fixed envelope,
    which does not depend on the exception; the exception's text goes to the
    log only. The handler registered for [Exception] answers the same. *)
Theorem unhandled_exception_enveloped
    (request : Request) (call_next : M Response) (exc : PyExc) (w w' : World) :
  call_next w = (Raise exc, w') →
  let r := ErrorHandlingMiddleware.dispatch request call_next w in
  let envelope : gmap string string :=
    {[ "error" := "Internal server error"; "detail" := "An unexpected error occurred" ]} in
  result r = Return (mkResponse 500 (BJson envelope))
  ∧ users (world_after r) = users w'
  ∧ log (world_after r)
    = log w' ++ [mkLogEntry "error" "Unhandled exception"
                   [("method", LStr (method request)); ("url", LStr (url request));
                    ("error", LStr (exc_str exc)); ("exc_info", LStr "True")]]
  ∧ result (main.global_exception_handler request exc w')
    = Return (mkResponse 500 (BJson envelope)).
Proof.
  intros H r envelope. subst r.
  unfold ErrorHandlingMiddleware.dispatch, try_except.
  rewrite M_bind_run, H. destruct w'. by cbn.
Qed.

Lemma probe_failure_raises_NameError (w : World) (e : PyExc) :
  ping w = Some e →
  result (SystemService.health_check w) = Raise (NameError "logger")
  ∧ result (routers.health_check w) = Raise (NameError "logger").
Proof.
  intros H.
  assert (SystemService.health_check w
          = (Raise (NameError "logger"), set_ops (ops w ++ [OpPing]) w)) as Hs.
  { unfold SystemService.health_check, try_except, command_ping, issue, modify, get_world.
    rewrite !M_bind_run. cbv beta iota.
    replace (ping (set_ops _ w)) with (ping w) by (by destruct w).
    rewrite H. reflexivity. }
  split; [by rewrite Hs|].
  unfold routers.health_check. by rewrite M_bind_run, Hs.
Qed.

Lemma probe_success_healthy (w : World) :
  ping w = None →
  result (SystemService.health_check w)
    = Return {[ "status" := "healthy"; "database" := "connected" ]}
  ∧ result (routers.health_check w)
    = Return (HealthResponse.mk "healthy" "connected" (clock w (ticks w))).
Proof.
  intros H.
  assert (SystemService.health_check w
          = (Return {[ "status" := "healthy"; "database" := "connected" ]},
             set_ops (ops w ++ [OpPing]) w)) as Hs.
  { unfold SystemService.health_check, try_except, command_ping, issue, modify, get_world.
    rewrite !M_bind_run. cbv beta iota.
    replace (ping (set_ops _ w)) with (ping w) by (by destruct w).
    rewrite H. reflexivity. }
  split; [by rewrite Hs|].
  unfold routers.health_check. rewrite M_bind_run, Hs. by destruct w.
Qed.

(** Claim C2, at a store that refuses the probe: the handler of the failed
    probe refers to the name [logger], which [services.py] never binds, so
    [health_check] raises [NameError] instead of returning the unhealthy
    status; the route gets no status to turn into a 503, and the caller
    receives the 500 envelope. *)
Theorem health_check_probe_failure :
  ping world_probe_down = Some (ConnectionFailure "localhost:27017: connection refused")
  ∧ result (SystemService.health_check world_probe_down) = Raise (NameError "logger")
  ∧ result (routers.health_check world_probe_down) = Raise (NameError "logger")
  ∧ result (main.app sample_request (serve 200 BHealth routers.health_check) world_probe_down)
    = Return (mkResponse 500 (BJson error_envelope)).
Proof. vm_compute. done. Qed.

(** ** The claims at sample inputs *)

Lemma get_user_by_id_malformed_id_witness :
  ObjectId_parse "doesnotexist" = None
  ∧ UserService.get_user_by_id sample_validate_email "doesnotexist" world_ann
    = (Return None, world_ann)
  ∧ routers.get_user sample_validate_email "doesnotexist" world_ann
    = (Raise (HTTPException 404 "User not found"), world_ann)
  ∧ exception_middleware
      (serve 200 BUser (routers.get_user sample_validate_email "doesnotexist")) world_ann
    = (Return (mkResponse 404 (BDetail "User not found")), world_ann).
Proof.
  assert (ObjectId_parse "doesnotexist" = None) as H by (vm_compute; reflexivity).
  split; [exact H|].
  exact (get_user_by_id_malformed_id sample_validate_email "doesnotexist" world_ann H).
Defined.

Lemma malformed_id_stops_at_router_witness :
  ObjectId_parse "not-an-id" = None
  ∧ routers.update_user sample_validate_email "not-an-id" suspend world_ann
    = (Raise (HTTPException 404 "User not found"), world_ann)
  ∧ routers.delete_user sample_validate_email "not-an-id" world_ann
    = (Raise (HTTPException 404 "User not found"), world_ann)
  ∧ (UserUpdate.model_dump suspend ≠ ∅ →
     result (UserService.update_user sample_validate_email "not-an-id" suspend world_ann)
     = Raise (InvalidId "not-an-id"))
  ∧ result (UserService.delete_user "not-an-id" world_ann) = Raise (InvalidId "not-an-id").
Proof.
  assert (ObjectId_parse "not-an-id" = None) as H by (vm_compute; reflexivity).
  split; [exact H|].
  exact (malformed_id_stops_at_router sample_validate_email "not-an-id" suspend world_ann H).
Defined.

Lemma update_user_empty_patch_witness :
  let ve := sample_validate_email in
  let r := UserService.update_user ve ann_id UserUpdate.empty world_ann in
  let r' := routers.update_user ve ann_id UserUpdate.empty world_ann in
  result (UserService.get_user_by_id ve ann_id world_ann) = Return (Some ann_user)
  ∧ result r = Return (Some ann_user)
  ∧ users (world_after r) = users world_ann
  ∧ ticks (world_after r) = ticks world_ann
  ∧ no_write (issued world_ann r)
  ∧ result r' = Return ann_user
  ∧ users (world_after r') = users world_ann
  ∧ ticks (world_after r') = ticks world_ann
  ∧ no_write (issued world_ann r').
Proof.
  intros ve r r'.
  assert (result (UserService.get_user_by_id ve ann_id world_ann) = Return (Some ann_user))
    as H by (vm_compute; reflexivity).
  split; [exact H|].
  exact (update_user_empty_patch ve ann_id ann_user world_ann H).
Defined.

Lemma delete_user_not_found_or_removed_witness :
  let ve := sample_validate_email in
  let r := routers.delete_user ve absent_id world_ann in
  let r' := routers.delete_user ve ann_id world_ann in
  (result (UserService.get_user_by_id ve absent_id world_ann) = Return None
   ∧ result r = Raise (HTTPException 404 "User not found")
   ∧ users (world_after r) = users world_ann
   ∧ no_write (issued world_ann r))
  ∧ (result (UserService.get_user_by_id ve ann_id world_ann) = Return (Some ann_user)
     ∧ unique_ids (users world_ann)
     ∧ result r' = Return (SuccessResponse.mk "User deleted successfully")
     ∧ (∃ i d, users world_ann !! i = Some d ∧ ObjectId_parse ann_id = Some (doc_id d)
               ∧ users (world_after r') = delete i (users world_ann))
     ∧ result (UserService.get_user_by_id ve ann_id (world_after r')) = Return None
     ∧ result (routers.get_user ve ann_id (world_after r'))
       = Raise (HTTPException 404 "User not found")).
Proof.
  intros ve r r'.
  assert (result (UserService.get_user_by_id ve absent_id world_ann) = Return None)
    as H1 by (vm_compute; reflexivity).
  assert (result (UserService.get_user_by_id ve ann_id world_ann) = Return (Some ann_user))
    as H2 by (vm_compute; reflexivity).
  assert (unique_ids (users world_ann)) as H3 by compute_done.
  split.
  - split; [exact H1|].
    exact (proj1 (delete_user_not_found_or_removed ve absent_id world_ann) H1).
  - split; [exact H2|]. split; [exact H3|].
    exact (proj2 (delete_user_not_found_or_removed ve ann_id world_ann) ann_user H2 H3).
Defined.



Lemma create_then_get_by_id_witness :
  let ve := sample_validate_email in
  let r := UserService.create_user ve ann sample_world in
  let t1 := clock sample_world (ticks sample_world) in
  let t2 := clock sample_world (S (ticks sample_world)) in
  result r = Return ann_created
  ∧ result (UserService.get_user_by_id ve (User.id ann_created) (world_after r))
    = Return (Some (read_back ann_created))
  ∧ User.created_at ann_created = t1
  ∧ User.updated_at ann_created = t2
  ∧ (read_back ann_created = ann_created ↔ (t1 `mod` 1000 = 0 ∧ t2 `mod` 1000 = 0)%Z)
  ∧ (User.created_at (read_back ann_created) = User.updated_at (read_back ann_created)
     ↔ (t1 `div` 1000 = t2 `div` 1000)%Z).
Proof.
  intros ve r t1 t2.
  assert (result r = Return ann_created) as H by (vm_compute; reflexivity).
  split; [exact H|].
  exact (create_then_get_by_id ve ann ann_created sample_world H).
Defined.

(** Claim C4 as stated fails: with readings at 1.0 and 2.5 milliseconds, the
    record read back after the create carries 2.0 milliseconds as
    [updated_at] where the created record carries 2.5, and its [created_at]
    and [updated_at] differ. *)
Lemma create_user_timestamps_differ :
  let ve := sample_validate_email in
  let r := UserService.create_user ve ann sample_world in
  result r = Return ann_created
  ∧ result (UserService.get_user_by_id ve (User.id ann_created) (world_after r))
    = Return (Some ann_user)
  ∧ ann_user ≠ ann_created
  ∧ User.updated_at ann_user ≠ User.updated_at ann_created
  ∧ User.created_at ann_user ≠ User.updated_at ann_user.
Proof. vm_compute. split_and!; [reflexivity..|discriminate|discriminate|discriminate]. Qed.

Lemma update_user_patch_witness :
  let ve := sample_validate_email in
  let r := UserService.update_user ve ann_id suspend world_ann in
  result (UserService.get_user_by_id ve ann_id world_ann) = Return (Some ann_user)
  ∧ ObjectId_parse ann_id = Some (sample_oid 0)
  ∧ list_find (has_id (sample_oid 0)) (users world_ann) = Some (0%nat, ann_document)
  ∧ UserUpdate.model_dump suspend ≠ ∅
  ∧ changes_a_field suspend ann_document
  ∧ email_clash (email_index world_ann) (doc_fields ann_document_suspended)
      (doc_fields ann_document) (users world_ann) = false
  ∧ UserUpdate_valid ve suspend = true
  ∧ keeps_required suspend
  ∧ users (world_after r) = [ann_document_suspended]
  ∧ (∃ u, result r = Return (Some u))
  ∧ result r = Return (Some ann_suspended)
  ∧ User.id ann_suspended = User.id ann_user
  ∧ User.created_at ann_suspended = User.created_at ann_user
  ∧ User.name ann_suspended = User.name ann_user
  ∧ User.email ann_suspended = User.email ann_user
  ∧ User.age ann_suspended = User.age ann_user
  ∧ User.status ann_suspended = "suspended"
  ∧ User.updated_at ann_suspended = bson_datetime (clock world_ann (ticks world_ann))
  ∧ (User.updated_at ann_user < User.updated_at ann_suspended)%Z.
Proof.
  intros ve r.
  assert (result (UserService.get_user_by_id ve ann_id world_ann) = Return (Some ann_user))
    as H1 by (vm_compute; reflexivity).
  assert (ObjectId_parse ann_id = Some (sample_oid 0)) as H2 by (vm_compute; reflexivity).
  assert (list_find (has_id (sample_oid 0)) (users world_ann) = Some (0%nat, ann_document))
    as H3 by (vm_compute; reflexivity).
  assert (UserUpdate.model_dump suspend ≠ ∅) as H4 by compute_done.
  assert (changes_a_field suspend ann_document) as H5.
  { exists "status", (VStr "suspended"). split; [vm_compute; reflexivity|].
    vm_compute. discriminate. }
  assert (email_clash (email_index world_ann) (doc_fields ann_document_suspended)
            (doc_fields ann_document) (users world_ann) = false)
    as H6 by (vm_compute; reflexivity).
  assert (UserUpdate_valid ve suspend = true) as H7 by (vm_compute; reflexivity).
  assert (keeps_required suspend) as H8 by (split_and!; discriminate).
  destruct (update_user_patch ve ann_id suspend ann_user world_ann (sample_oid 0) 0
              ann_document H1 H2 H3 H4)
    as (_ & _ & _ & _ & Hwrite & Hret).
  destruct (Hwrite H5 H6) as (Hw & Hr & Hex).
  assert (result r = Return (Some ann_suspended)) as H9.
  { etransitivity; [exact Hr|]. vm_compute. reflexivity. }
  destruct (Hret ann_suspended H9)
    as (_ & Uid & Uc & Un & Ue & Ua & _ & _ & _ & _ & Us & Um & Hlt).
  split_and!; [exact H1|exact H2|exact H3|exact H4|exact H5|exact H6|exact H7|exact H8
              |exact Hw|exact (Hex H7 H8)|exact H9|exact Uid|exact Uc|exact (Un eq_refl)
              |exact (Ue eq_refl)|exact (Ua eq_refl)|exact (Us _ eq_refl)|exact Um|].
  apply Hlt. vm_compute. discriminate.
Defined.

(** Claim C6 as stated fails. When the wall clock has been set back since
    the record was written, an update that changes [status] stamps an
    [updated_at] that is earlier than the prior one. And when the update
    follows the last write within the same millisecond, the clock reading is
    later, but the [updated_at] that the store keeps is the prior one. *)
Lemma update_user_updated_at_not_later :
  let ve := sample_validate_email in
  (result (UserService.get_user_by_id ve ann_id world_ann_set_back)
     = Return (Some ann_set_back)
   ∧ UserUpdate.model_dump suspend ≠ ∅
   ∧ result (UserService.update_user ve ann_id suspend world_ann_set_back)
     = Return (Some ann_set_back_suspended)
   ∧ User.status ann_set_back_suspended ≠ User.status ann_set_back
   ∧ ¬ (User.updated_at ann_set_back < User.updated_at ann_set_back_suspended)%Z)
  ∧ (result (UserService.get_user_by_id ve ann_id world_ann_fast) = Return (Some ann_fast)
     ∧ result (UserService.update_user ve ann_id suspend world_ann_fast)
       = Return (Some ann_fast_suspended)
     ∧ User.status ann_fast_suspended ≠ User.status ann_fast
     ∧ (User.updated_at ann_fast < clock world_ann_fast (ticks world_ann_fast))%Z
     ∧ ¬ (User.updated_at ann_fast < User.updated_at ann_fast_suspended)%Z).
Proof.
  split.
  - split_and!; [vm_compute; reflexivity|compute_done|vm_compute; reflexivity|discriminate|].
    cbn. lia.
  - split_and!; [vm_compute; reflexivity|vm_compute; reflexivity|discriminate
                |vm_compute; reflexivity|cbn; lia].
Qed.



Lemma unhandled_exception_enveloped_witness :
  let call_next := serve 200 BHealth routers.health_check in
  let w' := world_after (call_next world_probe_down) in
  let r := ErrorHandlingMiddleware.dispatch sample_request call_next world_probe_down in
  let envelope : gmap string string :=
    {[ "error" := "Internal server error"; "detail" := "An unexpected error occurred" ]} in
  call_next world_probe_down = (Raise (NameError "logger"), w')
  ∧ result r = Return (mkResponse 500 (BJson envelope))
  ∧ users (world_after r) = users w'
  ∧ log (world_after r)
    = log w' ++ [mkLogEntry "error" "Unhandled exception"
                   [("method", LStr (method sample_request));
                    ("url", LStr (url sample_request));
                    ("error", LStr (exc_str (NameError "logger")));
                    ("exc_info", LStr "True")]]
  ∧ result (main.global_exception_handler sample_request (NameError "logger") w')
    = Return (mkResponse 500 (BJson envelope)).
Proof.
  intros call_next w' r envelope.
  assert (call_next world_probe_down = (Raise (NameError "logger"), w')) as H
    by (vm_compute; reflexivity).
  split; [exact H|].
  exact (unhandled_exception_enveloped sample_request call_next (NameError "logger")
           world_probe_down w' H).
Defined.

(** ** End-to-end scenarios A and B *)

Example scenario_A :
  let ve := sample_validate_email in
  let post u := exception_middleware (serve 201 BUser (routers.create_user ve u)) in
  result (post ann sample_world) = Return (mkResponse 201 (BUser ann_created))
  ∧ result (post ann world_ann)
    = Return (mkResponse 409 (BDetail "User with this email already exists")).
Proof. vm_compute. done. Qed.

Example scenario_B :
  ∃ r, result (routers.list_users sample_validate_email 1 2 world_three) = Return r
    ∧ length (UserListResponse.users r) = 2%nat
    ∧ PaginationInfo.total (UserListResponse.pagination r) = 3%Z
    ∧ PaginationInfo.pages (UserListResponse.pagination r) = 2%Z.
Proof. eexists. vm_compute. done. Qed.

(** ** Where the invariant ends *)

(** Setting a required field to null is accepted by [UserUpdate]; the stored
    document then no longer builds a [User], the update route answers 500, and
    a later create with that email raises instead of answering 409. *)
Example null_name_leaves_invalid_document :
  let ve := sample_validate_email in
  let null_name := UserUpdate.mk (Some None) None None None in
  let r := routers.update_user ve ann_id null_name world_ann in
  result r = Raise (HTTPException 500 "Failed to update user")
  ∧ ¬ store_valid ve (users (world_after r))
  ∧ result (routers.get_user ve ann_id (world_after r))
    = Raise (HTTPException 404 "User not found")
  ∧ result (routers.create_user ve ann (world_after r)) = Raise (ValidationError "User").
Proof.
  intros ve null_name r. split_and!; try (vm_compute; reflexivity).
  compute_done.
Qed.

(** * Further properties of the service and the router *)

Section more.
Context (ve : string → option string).

Lemma User_of_dict_ok d u : User_of_dict ve d = Some u → User_ok u = true.
Proof.
  intros H. apply User_of_dict_Some in H as (_ & Hn & _ & Ha & Hs & _ & _).
  unfold User_ok.
  unfold validate_name in Hn. unfold validate_age in Ha. unfold validate_status in Hs.
  assert (name_ok (User.name u) = true) as ->.
  { destruct (d !! "name") as [[]|]; try done.
    destruct (name_ok s) eqn:E; by simplify_eq. }
  assert (status_ok (User.status u) = true) as ->.
  { destruct (d !! "status") as [[]|]; try done.
    - destruct (status_ok s) eqn:E; by simplify_eq.
    - by injection Hs as <-. }
  destruct (d !! "age") as [[| |a|]|]; try done.
  all: try (injection Ha as <-; reflexivity).
  destruct (age_ok a) eqn:E; [|done]. injection Ha as <-. cbn. by rewrite E.
Qed.

Lemma mapM_User_of_document_inv (l : list Document) (w w' : World) (us : list User.t) :
  mapM (User_of_document ve) l w = (Return us, w') →
  w' = w ∧ Forall2 (λ d u, user_of ve d = Some u) l us.
Proof.
  revert us. induction l as [|d l IH]; intros us H.
  - cbn in H. injection H as <- <-. by split.
  - change (mapM (User_of_document ve) (d :: l))
      with (y ← User_of_document ve d; k ← mapM (User_of_document ve) l; mret (y :: k)) in H.
    rewrite M_bind_run in H. unfold User_of_document at 1 in H.
    destruct (user_of ve d) as [u|] eqn:Hu; cbn in H; [|done].
    rewrite M_bind_run in H.
    destruct (mapM (User_of_document ve) l w) as [[us'|e] w1] eqn:Hm; [|done].
    rewrite M_ret_run in H. injection H as <- <-.
    destruct (IH us' eq_refl) as [-> Hall]. split; [done|]. by constructor.
Qed.

(** Extra X1. Whatever documents the store holds, every record that
    [get_user_by_id], [get_user_by_email] or [list_users] returns
    satisfies the constraints of the model: a name of 1 to 100 characters,
    an age between 0 and 150 when there is one, and one of the three
    statuses. *)
Theorem returned_users_satisfy_model (user_id email : string) (skip limit : Z) (w : World) :
  (∀ u, result (UserService.get_user_by_id ve user_id w) = Return (Some u) → User_ok u = true)
  ∧ (∀ u, result (UserService.get_user_by_email ve email w) = Return (Some u) → User_ok u = true)
  ∧ (∀ us, result (UserService.list_users ve skip limit w) = Return us →
       Forall (λ u, User_ok u = true) us).
Proof.
  split_and!.
  - intros u. rewrite get_user_by_id_run. cbn. intros [= H].
    apply lookup_user_Some in H as (oid & i & d & _ & _ & H).
    by eapply User_of_dict_ok.
  - intros u. rewrite get_user_by_email_run. cbn. intros H.
    destruct (find_email email (users w)) as [d|]; [|done].
    destruct (user_of ve d) as [u'|] eqn:Hu; [|done]. injection H as <-.
    by eapply User_of_dict_ok.
  - intros us. unfold UserService.list_users. rewrite M_bind_run.
    destruct (find_skip_limit skip limit w) as [[cursor|e] w1]; [|done].
    intros H. cbn in H.
    destruct (mapM (User_of_document ve) cursor w1) as [[us'|e] w2] eqn:Hm; [|done].
    cbn in H. injection H as <-.
    apply mapM_User_of_document_inv in Hm as [_ Hall].
    induction Hall as [|d u l k Hu _ IH]; constructor; [|done].
    by eapply User_of_dict_ok.
Qed.

(** Extra X2. [get_user_by_email] issues one lookup and leaves the collection
    alone. It returns [None] when no document carries the email; otherwise
    the first document that carries it decides: the record built from it,
    or, unlike the lookup by identifier, [ValidationError] when it does
    not build one. *)
Theorem get_user_by_email_first_match (email : string) (w : World) :
  let r := UserService.get_user_by_email ve email w in
  users (world_after r) = users w
  ∧ issued w r = [OpFindOneEmail email]
  ∧ (¬ Exists (has_email email) (users w) → result r = Return None)
  ∧ (∀ i d, users w !! i = Some d → has_email email d →
       (∀ j d', users w !! j = Some d' → (j < i)%nat → ¬ has_email email d') →
       result r = match user_of ve d with
                  | Some u => Return (Some u)
                  | None => Raise (ValidationError "User")
                  end).
Proof.
  intros r. subst r. rewrite get_user_by_email_run. cbn [result world_after fst snd].
  split_and!.
  - by destruct w.
  - apply issued_app. by destruct w.
  - intros H. unfold find_email.
    assert (list_find (has_email email) (users w) = None) as ->; [|done].
    apply list_find_None. by apply not_Exists_Forall; [intros x; apply _|].
  - intros i d Hi Hd Hfirst. unfold find_email.
    assert (list_find (has_email email) (users w) = Some (i, d)) as ->; [|done].
    apply list_find_Some. eauto.
Qed.

(** Extra X3. After the create route has returned a record, looking the
    input's email up returns that record as it reads back from the store:
    the same identifier, name, email, age and status, and the two dates cut
    down to the millisecond. *)
Theorem create_then_get_by_email (user_data : UserCreate.t) (u : User.t) (w : World) :
  let r := routers.create_user ve user_data w in
  result r = Return u →
  result (UserService.get_user_by_email ve (UserCreate.email user_data) (world_after r))
  = Return (Some (read_back u)).
Proof.
  intros r Hr. subst r. rewrite routers_create_user_run in Hr |- *.
  destruct (find_email _ _) as [d|] eqn:Hf.
  { by destruct (user_of ve d). }
  set (w1 := set_ops _ w) in *.
  rewrite create_user_run in Hr |- *.
  destruct (bool_decide (Exists (has_id _) _)); [done|].
  destruct (email_index w1 && _); [done|].
  cbn [result world_after fst snd] in Hr |- *.
  destruct (User_of_dict _ _) as [u'|] eqn:Hu; [|done]. injection Hr as ->.
  rewrite get_user_by_email_run. cbn [result fst].
  set (doc := mkDocument _ _).
  replace (users _) with (users w ++ [doc]) by (by destruct w).
  assert (find_email (UserCreate.email user_data) (users w ++ [doc]) = Some doc) as ->.
  { unfold find_email in *. rewrite list_find_app_r.
    - cbn. rewrite decide_True; [done|].
      unfold has_email, doc. cbn. unfold created_dict, UserCreate.model_dump.
      by simplify_map_eq.
    - by destruct (list_find _ (users w)). }
  unfold user_of, Document_dict, doc. cbn [doc_id doc_fields].
  destruct (User_of_created_dates ve _ _ _ (bson_datetime (clock w1 (ticks w1)))
              (bson_datetime (clock w1 (S (ticks w1)))) _ _ Hu) as (Hc & Hm & ->).
  unfold read_back. by rewrite Hc, Hm.
Qed.

Lemma count_users_run w :
  UserService.count_users w
  = (Return (Z.of_nat (length (users w))), set_ops (ops w ++ [OpCountDocuments]) w).
Proof. by destruct w. Qed.

(** What an update can do to the collection. *)
Lemma update_user_store_cases s p w :
  let r := UserService.update_user ve s p w in
  users (world_after r) = users w
  ∨ ∃ oid i d,
      ObjectId_parse s = Some oid
      ∧ list_find (has_id oid) (users w) = Some (i, d)
      ∧ email_clash (email_index w) (set_dict p (bson_datetime (clock w (ticks w))) ∪ doc_fields d)
          (doc_fields d) (users w) = false
      ∧ users (world_after r)
        = <[i := mkDocument (doc_id d) (set_dict p (bson_datetime (clock w (ticks w))) ∪ doc_fields d)]> (users w).
Proof.
  intros r. subst r.
  destruct (decide (UserUpdate.model_dump p = ∅)) as [He|Hne].
  { left. unfold UserService.update_user. rewrite bool_decide_eq_true_2 by done.
    rewrite get_user_by_id_run. apply looked_up_users. }
  destruct (ObjectId_parse s) as [oid|] eqn:Hs.
  2:{ left. rewrite update_user_invalid by done. by destruct w. }
  rewrite (update_user_run ve s oid) by done.
  destruct (list_find _ _) as [[i d]|] eqn:Hf; [|left; by destruct w].
  cbn zeta. destruct (bool_decide (_ = doc_fields d)); [left; by destruct w|].
  destruct (email_clash _ _ _ _) eqn:Hc; [left; by destruct w|].
  right. exists oid, i, d. split_and!; try done.
  cbn. rewrite looked_up_users. by destruct w.
Qed.

Lemma routers_update_user_store_cases s p w :
  let r := routers.update_user ve s p w in
  users (world_after r) = users w
  ∨ ∃ oid i d,
      ObjectId_parse s = Some oid
      ∧ list_find (has_id oid) (users w) = Some (i, d)
      ∧ email_clash (email_index w) (set_dict p (bson_datetime (clock w (ticks w))) ∪ doc_fields d)
          (doc_fields d) (users w) = false
      ∧ users (world_after r)
        = <[i := mkDocument (doc_id d) (set_dict p (bson_datetime (clock w (ticks w))) ∪ doc_fields d)]> (users w).
Proof.
  intros r. subst r. rewrite routers_update_user_run.
  destruct (lookup_user ve s (users w)); [|left; apply looked_up_users].
  pose proof (update_user_store_cases s p (looked_up s w)) as H. cbn zeta in H.
  rewrite looked_up_users, looked_up_ticks, looked_up_clock in H.
  replace (email_index (looked_up s w)) with (email_index w) in H
    by (unfold looked_up; by destruct (ObjectId_parse s), w).
  destruct (UserService.update_user ve s p (looked_up s w)) as [[[u|]|e] w']; exact H.
Qed.

(** Extra X4. Whatever the patch and however the update route ends, the
    documents keep their positions, their identifiers and their
    [created_at]. *)
Theorem update_user_keeps_id_and_created_at (user_id : string) (p : UserUpdate.t) (w : World) :
  let r := routers.update_user ve user_id p w in
  doc_id <$> users (world_after r) = doc_id <$> users w
  ∧ ∀ i d', users (world_after r) !! i = Some d' →
      ∃ d, users w !! i = Some d
           ∧ doc_id d' = doc_id d
           ∧ doc_fields d' !! "created_at" = doc_fields d !! "created_at".
Proof.
  intros r. subst r. destruct (routers_update_user_store_cases user_id p w)
    as [->|(oid & i & d & Hs & Hf & _ & ->)].
  { split; [done|]. intros i d' H. by exists d'. }
  apply list_find_Some in Hf as (Hi & _ & _).
  split.
  - rewrite list_fmap_insert. cbn. apply list_insert_id. by rewrite list_lookup_fmap, Hi.
  - intros j d' Hj. destruct (decide (j = i)) as [->|Hne].
    + rewrite list_lookup_insert_eq in Hj by (by eapply lookup_lt_Some).
      injection Hj as <-. exists d. split_and!; try done. cbn.
      rewrite patched_lookup, set_dict_lookup. rewrite decide_False by done.
      by destruct (model_dump_lookup p) as (_ & _ & _ & _ & -> & _).
    + rewrite list_lookup_insert_ne in Hj by done. by exists d'.
Qed.

Lemma NoDup_insert_same {A} (l : list A) i x y :
  NoDup l → l !! i = Some x → (y = x ∨ y ∉ l) → NoDup (<[i := y]> l).
Proof.
  intros Hnd Hi [->|Hy]; [by rewrite list_insert_id|].
  apply NoDup_alt. intros j k z Hj Hk.
  destruct (decide (j = i)) as [->|Hji], (decide (k = i)) as [->|Hki]; try done.
  - rewrite list_lookup_insert_eq in Hj by (by eapply lookup_lt_Some). simplify_eq.
    rewrite list_lookup_insert_ne in Hk by done.
    destruct Hy. by eapply list_elem_of_lookup_2.
  - rewrite list_lookup_insert_eq in Hk by (by eapply lookup_lt_Some). simplify_eq.
    rewrite list_lookup_insert_ne in Hj by done.
    destruct Hy. by eapply list_elem_of_lookup_2.
  - rewrite list_lookup_insert_ne in Hj, Hk by done.
    by eapply NoDup_lookup.
Qed.

(** Extra X5. With the unique index in place, the update route keeps the
    emails of the collection unique. *)
Theorem update_user_keeps_emails_unique (user_id : string) (p : UserUpdate.t) (w : World) :
  email_index w = true →
  emails_unique (users w) →
  emails_unique (users (world_after (routers.update_user ve user_id p w))).
Proof.
  intros Hix Hu. destruct (routers_update_user_store_cases user_id p w)
    as [->|(oid & i & d & Hs & Hf & Hc & ->)]; [done|].
  apply list_find_Some in Hf as (Hi & _ & _).
  unfold emails_unique in *. rewrite list_fmap_insert. cbn.
  set (f := set_dict p (bson_datetime (clock w (ticks w))) ∪ doc_fields d) in *.
  eapply NoDup_insert_same; [done| |].
  { rewrite list_lookup_fmap, Hi. done. }
  unfold email_clash in Hc. rewrite Hix in Hc. cbn in Hc.
  apply andb_false_iff in Hc as [Hc|Hc].
  - left. apply bool_decide_eq_false in Hc. by destruct (decide (email_key f = email_key (doc_fields d))).
  - right. apply bool_decide_eq_false in Hc. intros Hin. apply Hc.
    apply list_elem_of_fmap in Hin as (d' & Hk & Hd'). apply Exists_exists.
    exists d'. split; [done|]. by cbn in Hk.
Qed.


(** What the create route can do to the collection: nothing, or append one
    document that carries the input's email, after finding that no stored
    document carries it. *)
Lemma routers_create_user_store_cases user_data w :
  let r := routers.create_user ve user_data w in
  let doc := mkDocument (oid_source w (oids_taken w))
               (created_dict user_data (bson_datetime (clock w (ticks w)))
                  (bson_datetime (clock w (S (ticks w))))) in
  (users (world_after r) = users w ∧ (UserCreate_valid ve user_data = true → returned (result r) = false))
  ∨ (find_email (UserCreate.email user_data) (users w) = None
     ∧ ¬ Exists (has_id (doc_id doc)) (users w)
     ∧ users (world_after r) = users w ++ [doc]
     ∧ (UserCreate_valid ve user_data = true → returned (result r) = true)).
Proof.
  intros r doc. subst r. rewrite routers_create_user_run.
  destruct (find_email _ _) as [d|] eqn:Hf.
  { left. split; [by destruct w|]. by destruct (user_of ve d). }
  set (w1 := set_ops _ w). rewrite create_user_run.
  replace (users w1) with (users w) by (by destruct w).
  replace (oid_source w1) with (oid_source w) by (by destruct w).
  replace (oids_taken w1) with (oids_taken w) by (by destruct w).
  replace (clock w1) with (clock w) by (by destruct w).
  replace (ticks w1) with (ticks w) by (by destruct w).
  destruct (bool_decide (Exists (has_id _) _)) eqn:Hfresh.
  { left. split; [by destruct w|done]. }
  destruct (email_index w1 && _).
  { left. split; [by destruct w|done]. }
  right. apply bool_decide_eq_false in Hfresh. split_and!.
  - done.
  - exact Hfresh.
  - by destruct w.
  - intros Hv. cbn. by rewrite User_of_created.
Qed.

(** Extra X6. For a valid input, the count of records after the create route
    is the count before plus one when the route returned, and the count
    before when it raised. *)
Theorem create_user_count (user_data : UserCreate.t) (w : World) :
  UserCreate_valid ve user_data = true →
  let r := routers.create_user ve user_data w in
  result (UserService.count_users (world_after r))
  = Return (Z.of_nat (length (users w)) + (if returned (result r) then 1 else 0))%Z.
Proof.
  intros Hv r. subst r. rewrite count_users_run. cbn [result fst]. f_equal.
  destruct (routers_create_user_store_cases user_data w) as [[-> Hr]|(_ & _ & -> & Hr)];
    rewrite (Hr Hv).
  - lia.
  - rewrite length_app. cbn. lia.
Qed.

(** Extra X7. The create route keeps the emails of the collection unique, with
    or without the store's index. *)
Theorem create_user_keeps_emails_unique (user_data : UserCreate.t) (w : World) :
  emails_unique (users w) →
  emails_unique (users (world_after (routers.create_user ve user_data w))).
Proof.
  intros Hu.
  destruct (routers_create_user_store_cases user_data w) as [[-> _]|(Hf & _ & -> & _)]; [done|].
  unfold emails_unique in *. rewrite fmap_app. apply NoDup_app. split_and!; [done| |].
  - intros k Hk Hnew. cbn in Hnew. apply list_elem_of_singleton in Hnew as ->.
    rewrite email_key_created in Hk.
    apply list_elem_of_fmap in Hk as (d & Hd & Hin).
    unfold find_email in Hf.
    destruct (list_find (has_email (UserCreate.email user_data)) (users w)) eqn:Hl; [done|].
    apply list_find_None in Hl. rewrite Forall_forall in Hl.
    apply (Hl d Hin). apply email_key_has_email. by cbn in Hd.
  - cbn. apply NoDup_singleton.
Qed.

(** Extra X8. The delete route ends in one of two ways: it confirms and the
    collection has one document fewer, or it raises 404 and the collection
    is unchanged. Its 500 branch is not reached. *)
Theorem delete_user_outcomes (user_id : string) (w : World) :
  let r := routers.delete_user ve user_id w in
  (result r = Return (SuccessResponse.mk "User deleted successfully")
   ∧ S (length (users (world_after r))) = length (users w))
  ∨ (result r = Raise (HTTPException 404 "User not found")
     ∧ users (world_after r) = users w).
Proof.
  intros r. subst r. rewrite routers_delete_user_run.
  destruct (lookup_user ve user_id (users w)) as [u|] eqn:Hu.
  2:{ right. split; [done|]. apply looked_up_users. }
  left. apply lookup_user_Some in Hu as (oid & i & d & Hs & Hf & _).
  rewrite (delete_user_run _ oid) by done. rewrite looked_up_users, Hf.
  cbn [result world_after fst snd]. split; [done|].
  apply list_find_Some in Hf as (Hi & _ & _).
  replace (users _) with (delete i (users w)) by (by destruct w).
  rewrite length_delete by eauto.
  apply lookup_lt_Some in Hi. lia.
Qed.

(** Extra X9. For a well-formed identifier that no document carries, the
    service's lookup returns [None], its update returns [None] and its
    delete returns [False], and neither changes the collection. *)
Theorem service_calls_on_absent_id (user_id : string) (oid : ObjectId) (p : UserUpdate.t) (w : World) :
  ObjectId_parse user_id = Some oid →
  ¬ Exists (has_id oid) (users w) →
  result (UserService.get_user_by_id ve user_id w) = Return None
  ∧ result (UserService.update_user ve user_id p w) = Return None
  ∧ users (world_after (UserService.update_user ve user_id p w)) = users w
  ∧ result (UserService.delete_user user_id w) = Return false
  ∧ users (world_after (UserService.delete_user user_id w)) = users w.
Proof.
  intros Hs Hno.
  assert (list_find (has_id oid) (users w) = None) as Hf.
  { apply list_find_None. by apply not_Exists_Forall; [intros x; apply _|]. }
  assert (lookup_user ve user_id (users w) = None) as Hl.
  { unfold lookup_user, find_id. by rewrite Hs; cbn; rewrite Hf. }
  split_and!.
  - by rewrite get_user_by_id_run, Hl.
  - destruct (decide (UserUpdate.model_dump p = ∅)) as [He|Hne].
    + unfold UserService.update_user. rewrite bool_decide_eq_true_2 by done.
      by rewrite get_user_by_id_run, Hl.
    + by rewrite (update_user_run ve user_id oid), Hf.
  - destruct (decide (UserUpdate.model_dump p = ∅)) as [He|Hne].
    + unfold UserService.update_user. rewrite bool_decide_eq_true_2 by done.
      rewrite get_user_by_id_run. apply looked_up_users.
    + rewrite (update_user_run ve user_id oid), Hf by done. by destruct w.
  - by rewrite (delete_user_run _ oid), Hf.
  - rewrite (delete_user_run _ oid), Hf by done. by destruct w.
Qed.

(** Extra X10. A patch that sets [name] to null never makes the update route
    return a record. When the write goes through, the route raises 500 and
    the document no longer resolves by its identifier. *)
Theorem update_user_null_name (user_id : string) (p : UserUpdate.t) (w : World) :
  UserUpdate.name p = Some None →
  let r := routers.update_user ve user_id p w in
  returned (result r) = false
  ∧ (users (world_after r) ≠ users w →
     result r = Raise (HTTPException 500 "Failed to update user")
     ∧ result (UserService.get_user_by_id ve user_id (world_after r)) = Return None).
Proof.
  intros Hn r. subst r. rewrite routers_update_user_run.
  destruct (lookup_user ve user_id (users w)) as [u0|] eqn:Hu0.
  2:{ split; [done|]. intros H. destruct H. apply looked_up_users. }
  apply lookup_user_Some in Hu0 as (oid & i & d & Hs & Hf & _).
  assert (UserUpdate.model_dump p ≠ ∅) as Hne.
  { intros He. destruct (model_dump_lookup p) as (Dn & _). rewrite He, Hn in Dn. done. }
  rewrite (update_user_run ve user_id oid) by done.
  rewrite looked_up_users, looked_up_ticks, looked_up_clock, Hf. cbn zeta.
  set (f := set_dict p (bson_datetime (clock w (ticks w))) ∪ doc_fields d).
  destruct (bool_decide (f = doc_fields d)).
  { split; [done|]. intros H. destruct H. unfold looked_up. rewrite Hs. by destruct w. }
  destruct (email_clash _ _ _ _).
  { split; [done|]. intros H. destruct H. unfold looked_up. rewrite Hs. by destruct w. }
  assert (lookup_user ve user_id (<[i := mkDocument (doc_id d) f]> (users w)) = None) as Hl.
  { unfold lookup_user. rewrite Hs. cbn. erewrite find_id_insert by done. cbn.
    assert (Document_dict (mkDocument (doc_id d) f) !! "name" = Some VNull) as Hname.
    { rewrite Document_dict_field by done. cbn [doc_fields]. subst f.
      rewrite patched_lookup, set_dict_lookup. rewrite decide_False by done.
      destruct (model_dump_lookup p) as (-> & _). by rewrite Hn. }
    unfold user_of, User_of_dict. rewrite Hname.
    by destruct (validate_id _). }
  rewrite Hl. cbn [result world_after fst snd]. split; [done|]. intros _. split; [done|].
  rewrite get_user_by_id_run. cbn [result fst]. f_equal.
  rewrite looked_up_users.
  replace (users _) with (<[i := mkDocument (doc_id d) f]> (users w)); [done|].
  unfold looked_up. rewrite Hs. by destruct w.
Qed.

End more.

(** * Further properties: paging and the store's index *)

Section paging.
Context (ve : string → option string).

(** The list route on parameters in range, given what building the models
    of the slice yields. *)
Lemma routers_list_users_run page limit w :
  (1 ≤ page)%Z → (1 ≤ limit ≤ 100)%Z →
  let skip := ((page - 1) * limit)%Z in
  let slice := take (Z.to_nat limit) (drop (Z.to_nat skip) (users w)) in
  let w1 := set_ops (ops w ++ [OpFind skip limit]) w in
  let total := Z.of_nat (length (users w)) in
  routers.list_users ve page limit w =
  match mapM (User_of_document ve) slice w1 with
  | (Return us, w2) =>
      (Return (UserListResponse.mk us
                 (PaginationInfo.mk page limit total ((total + limit - 1) `div` limit)%Z)),
       set_ops (ops w2 ++ [OpCountDocuments]) w2)
  | (Raise e, w2) => (Raise e, w2)
  end.
Proof.
  intros Hp Hl skip slice w1 total.
  unfold routers.list_users, UserService.list_users, UserService.count_users,
    find_skip_limit, count_documents.
  rewrite (proj2 (Z.leb_le 1 page)) by done.
  rewrite (proj2 (Z.leb_le 1 limit)), (proj2 (Z.leb_le limit 100)) by lia.
  rewrite (proj2 (Z.ltb_ge _ 0)) by nia.
  rewrite (proj2 (Z.eqb_neq limit 0)) by lia.
  rewrite Z.abs_eq by lia. cbn [negb andb].
  unfold issue, modify, get_world.
  rewrite !M_bind_run, M_ret_run. cbv beta iota.
  replace (users (set_ops _ w)) with (users w) by (by destruct w).
  fold skip. fold slice. fold w1.
  destruct (mapM (User_of_document ve) slice w1) as [[us|e] w2] eqn:Hm; [|done].
  rewrite !M_bind_run, !M_ret_run. cbv beta iota.
  apply mapM_User_of_document_inv in Hm as [-> _].
  subst total. by destruct w.
Qed.

(** Extra X11. A page that starts at or after the end of the collection is
    answered with an empty list, the true total, and a page count below
    the page asked for. *)
Theorem list_users_past_the_end (page limit : Z) (w : World) :
  (1 ≤ page)%Z → (1 ≤ limit ≤ 100)%Z →
  (Z.of_nat (length (users w)) ≤ (page - 1) * limit)%Z →
  ∃ r, result (routers.list_users ve page limit w) = Return r
    ∧ UserListResponse.users r = []
    ∧ PaginationInfo.total (UserListResponse.pagination r) = Z.of_nat (length (users w))
    ∧ (PaginationInfo.pages (UserListResponse.pagination r) < page)%Z.
Proof.
  intros Hp Hl Hend. rewrite routers_list_users_run by done. cbn zeta.
  rewrite drop_ge by lia. rewrite take_nil. cbn.
  eexists. split_and!; try done. cbn.
  apply Z.div_lt_upper_bound; nia.
Qed.

(** Extra X12. In a collection of valid records, the record at position [i] is
    served on page [i / limit + 1] at offset [i mod limit]. *)
Theorem list_users_page_of_record (limit : Z) (i : nat) (d : Document) (w : World) :
  (1 ≤ limit ≤ 100)%Z →
  store_valid ve (users w) →
  users w !! i = Some d →
  ∃ r u, result (routers.list_users ve (Z.of_nat i `div` limit + 1) limit w) = Return r
    ∧ user_of ve d = Some u
    ∧ UserListResponse.users r !! Z.to_nat (Z.of_nat i `mod` limit) = Some u.
Proof.
  intros Hl Hv Hi.
  pose proof (Z.div_pos (Z.of_nat i) limit ltac:(lia) ltac:(lia)) as Hq.
  pose proof (Z.mod_pos_bound (Z.of_nat i) limit ltac:(lia)) as Hm.
  pose proof (Z.div_mod (Z.of_nat i) limit ltac:(lia)) as Hdm.
  rewrite routers_list_users_run by lia. cbn zeta.
  set (skip := ((Z.of_nat i `div` limit + 1 - 1) * limit)%Z).
  set (slice := take (Z.to_nat limit) (drop (Z.to_nat skip) (users w))).
  assert (store_valid ve slice) as Hs.
  { unfold store_valid, slice. by apply Forall_take, Forall_drop. }
  destruct (mapM_User_of_document ve slice
              (set_ops (ops w ++ [OpFind skip limit]) w) Hs) as (us & -> & Hall).
  assert (slice !! Z.to_nat (Z.of_nat i `mod` limit) = Some d) as Hd.
  { unfold slice. rewrite lookup_take_lt by lia. rewrite lookup_drop.
    rewrite <- Hi. f_equal. unfold skip. nia. }
  destruct (Forall2_lookup_l _ _ _ _ _ Hall Hd) as (u & Hu & Hdu).
  eexists _, u. by split_and!.
Qed.

(** Extra X13. A page below 1 or a limit outside 1..100 is refused with a
    validation error, answered as 422, before any store command is issued. *)
Theorem list_users_rejects_out_of_range (page limit : Z) (w : World) :
  (page < 1 ∨ limit < 1 ∨ 100 < limit)%Z →
  (∃ param, routers.list_users ve page limit w = (Raise (RequestValidationError param), w))
  ∧ ∃ param,
      exception_middleware (serve 200 BUserList (routers.list_users ve page limit)) w
      = (Return (mkResponse 422 (BDetail param)), w).
Proof.
  intros H.
  assert (∃ param, routers.list_users ve page limit w
                   = (Raise (RequestValidationError param), w)) as [param Hr].
  { unfold routers.list_users.
    destruct (1 <=? page)%Z eqn:Hp; [|by eexists]. cbn [negb].
    destruct ((1 <=? limit) && (limit <=? 100))%Z eqn:Hl; [|by eexists].
    apply andb_true_iff in Hl as [?%Z.leb_le ?%Z.leb_le]. apply Z.leb_le in Hp. lia. }
  split; [by exists param|]. exists param.
  unfold exception_middleware, serve, try_except. by rewrite M_bind_run, Hr.
Qed.

Lemma Exists_email_key_created user_data t1 t2 (l : list Document) :
  Exists (λ d, email_key (doc_fields d) = email_key (created_dict user_data t1 t2)) l
  ↔ Exists (has_email (UserCreate.email user_data)) l.
Proof.
  rewrite email_key_created. split; intros H; eapply Exists_impl; try exact H;
    intros d Hd; by apply email_key_has_email.
Qed.

(** Extra X18. [UserService.create_user] checks nothing itself: with the
    unique index in place the store refuses a document whose email is
    already there, and the collection is unchanged. *)
Theorem create_user_duplicate_refused_by_index (user_data : UserCreate.t) (w : World) :
  email_index w = true →
  Exists (has_email (UserCreate.email user_data)) (users w) →
  let r := UserService.create_user ve user_data w in
  (∃ index, result r = Raise (DuplicateKeyError index))
  ∧ users (world_after r) = users w.
Proof.
  intros Hix Hex r. subst r. rewrite create_user_run.
  destruct (bool_decide (Exists (has_id _) _)).
  { split; [by eexists|by destruct w]. }
  rewrite Hix. rewrite bool_decide_eq_true_2 by by apply Exists_email_key_created.
  split; [by eexists|by destruct w].
Qed.

(** Extra X19. Without the unique index, [UserService.create_user] inserts a
    second document with an email that is already there. *)
Theorem create_user_duplicate_inserted_without_index (user_data : UserCreate.t) (w : World) :
  email_index w = false →
  UserCreate_valid ve user_data = true →
  Exists (has_email (UserCreate.email user_data)) (users w) →
  ¬ Exists (has_id (oid_source w (oids_taken w))) (users w) →
  let r := UserService.create_user ve user_data w in
  returned (result r) = true
  ∧ length (users (world_after r)) = S (length (users w))
  ∧ ¬ emails_unique (users (world_after r)).
Proof.
  intros Hix Hv Hex Hfresh r. subst r. rewrite create_user_run.
  rewrite bool_decide_eq_false_2 by done. rewrite Hix. cbn [andb].
  rewrite User_of_created by done. cbn [result world_after fst snd].
  replace (users _) with
    (users w ++ [mkDocument (oid_source w (oids_taken w))
                   (created_dict user_data (bson_datetime (clock w (ticks w)))
                      (bson_datetime (clock w (S (ticks w)))))])
    by (by destruct w).
  split_and!; [done|rewrite length_app; cbn; lia|].
  unfold emails_unique. rewrite fmap_app. intros Hnd.
  apply NoDup_app in Hnd as (_ & Hdisj & _).
  apply Exists_exists in Hex as (d & Hin & Hd).
  apply (Hdisj (VStr (UserCreate.email user_data))).
  - apply list_elem_of_fmap. exists d. split; [|done]. cbn.
    symmetry. by apply email_key_has_email.
  - cbn. rewrite email_key_created. apply list_elem_of_singleton. done.
Qed.

End paging.

(** * Further properties: the request pipeline and the health check *)

Lemma LoggingMiddleware_run (request : Request) (call_next : M Response) (w : World) :
  LoggingMiddleware.dispatch request call_next w
  = match call_next (request_started request w) with
    | (Return resp, w2) =>
        (Return resp,
         set_log (log w2 ++ [completed_entry request (status_code resp)
                               (clock w2 (ticks w2) - clock w (ticks w))])
           (set_ticks (S (ticks w2)) w2))
    | (Raise e, w2) => (Raise e, w2)
    end.
Proof.
  unfold LoggingMiddleware.dispatch, utcnow, logger_emit, modify.
  rewrite !M_bind_run. cbv beta iota.
  change (set_log _ (set_ticks (S (ticks w)) w)) with (request_started request w).
  destruct (call_next (request_started request w)) as [[resp|e] w2]; [|done].
  rewrite !M_bind_run. cbv beta iota. by destruct w2.
Qed.

Lemma ErrorHandlingMiddleware_run (request : Request) (call_next : M Response) (w : World) :
  ErrorHandlingMiddleware.dispatch request call_next w
  = match call_next w with
    | (Return resp, w') => (Return resp, w')
    | (Raise exc, w') =>
        (Return (mkResponse 500 (BJson error_envelope)),
         set_log (log w' ++ [mkLogEntry "error" "Unhandled exception"
                               [("method", LStr (method request)); ("url", LStr (url request));
                                ("error", LStr (exc_str exc)); ("exc_info", LStr "True")]]) w')
    end.
Proof.
  unfold ErrorHandlingMiddleware.dispatch, try_except. rewrite M_bind_run.
  by destruct (call_next w) as [[resp|e] w'].
Qed.

(** Extra X14. The logging stage is transparent: it ends as the next stage ends, with the
    same response or the same exception, and touches only the clock and the
    log. It writes a completion entry, with the response's status code and
    the time elapsed between its two clock readings, only when the next stage
    returns. *)
Theorem logging_stage_transparent
    (request : Request) (call_next : M Response) (w : World) :
  let down := call_next (request_started request w) in
  let r := LoggingMiddleware.dispatch request call_next w in
  result r = result down
  ∧ users (world_after r) = users (world_after down)
  ∧ ops (world_after r) = ops (world_after down)
  ∧ log (world_after r)
    = log (world_after down)
      ++ match result down with
         | Return resp =>
             [completed_entry request (status_code resp)
                (clock (world_after down) (ticks (world_after down)) - clock w (ticks w))]
         | Raise _ => []
         end.
Proof.
  intros down r. subst r down. rewrite LoggingMiddleware_run.
  destruct (call_next (request_started request w)) as [[resp|e] w2]; cbn.
  - by destruct w2.
  - by rewrite app_nil_r.
Qed.

(** Extra X15. The application never raises: whatever the route does, the caller gets a
    response, and the handler registered for [Exception] is never run. *)
Theorem app_always_responds (request : Request) (route : M Response) (w : World) :
  result (main.app request route w)
  = Return (response_for (result (route (request_started request w))))
  ∧ main.app request route w
    = ErrorHandlingMiddleware.dispatch request
        (LoggingMiddleware.dispatch request (exception_middleware route)) w.
Proof.
  unfold main.app. unfold try_except at 1 2.
  rewrite ErrorHandlingMiddleware_run, LoggingMiddleware_run.
  unfold exception_middleware, try_except.
  destruct (route (request_started request w)) as [[resp|e] w2]; [done|].
  destruct e; done.
Qed.

(** Extra X16. When the probe answers, the health check reports healthy and connected,
    and the route returns that report stamped with one clock reading; the
    only store command is the probe. *)
Theorem health_check_healthy (w : World) :
  ping w = None →
  let r := routers.health_check w in
  result (SystemService.health_check w)
    = Return {[ "status" := "healthy"; "database" := "connected" ]}
  ∧ result r = Return (HealthResponse.mk "healthy" "connected" (clock w (ticks w)))
  ∧ issued w r = [OpPing]
  ∧ ticks (world_after r) = S (ticks w)
  ∧ users (world_after r) = users w
  ∧ log (world_after r) = log w.
Proof.
  intros H r.
  assert (SystemService.health_check w
          = (Return {[ "status" := "healthy"; "database" := "connected" ]},
             set_ops (ops w ++ [OpPing]) w)) as Hs.
  { unfold SystemService.health_check, try_except, command_ping, issue, modify, get_world.
    rewrite !M_bind_run. cbv beta iota.
    replace (ping (set_ops _ w)) with (ping w) by (by destruct w).
    rewrite H. reflexivity. }
  assert (r = (Return (HealthResponse.mk "healthy" "connected" (clock w (ticks w))),
               set_ticks (S (ticks w)) (set_ops (ops w ++ [OpPing]) w))) as ->.
  { subst r. unfold routers.health_check. rewrite M_bind_run, Hs. by destruct w. }
  rewrite Hs. cbn. split_and!; try done; try by destruct w.
  apply issued_app. by destruct w.
Qed.

(** Extra X17. The health route never answers 503: the service method either reports
    healthy or raises [NameError], so the route's unhealthy branch is not
    reached. *)
Theorem health_check_never_503 (w : World) :
  (result (SystemService.health_check w)
     = Return {[ "status" := "healthy"; "database" := "connected" ]}
   ∨ result (SystemService.health_check w) = Raise (NameError "logger"))
  ∧ ∀ detail, result (routers.health_check w) ≠ Raise (HTTPException 503 detail).
Proof.
  assert (SystemService.health_check w
          = (match ping w with
             | None => Return {[ "status" := "healthy"; "database" := "connected" ]}
             | Some _ => Raise (NameError "logger")
             end, set_ops (ops w ++ [OpPing]) w)) as Hs.
  { unfold SystemService.health_check, try_except, command_ping, issue, modify, get_world.
    rewrite !M_bind_run. cbv beta iota.
    replace (ping (set_ops _ w)) with (ping w) by (by destruct w).
    by destruct (ping w). }
  split.
  - rewrite Hs. destruct (ping w); [by right|by left].
  - intros detail. unfold routers.health_check. rewrite M_bind_run, Hs.
    destruct (ping w); [done|]. by destruct w.
Qed.

(** * The connection manager and the application's lifespan *)

Lemma L_bind_run {A B} (m : L A) (f : A → L B) (r : Runtime) :
  (m ≫= f) r
  = match m r with
    | (Return a, r') => f a r'
    | (Raise e, r') => (Raise e, r')
    end.
Proof. reflexivity. Qed.

Lemma elem_of_add_index ix ix' l : ix' ∈ add_index ix l ↔ ix' = ix ∨ ix' ∈ l.
Proof.
  unfold add_index. case_bool_decide as H.
  - split; [by right|]. by intros [->|].
  - rewrite elem_of_app, list_elem_of_singleton. tauto.
Qed.

Lemma first_refusal_ext f g l :
  (∀ ix, f ix = g ix) → first_refusal f l = first_refusal g l.
Proof. intros H. induction l as [|ix l IH]; cbn; [done|]. by rewrite H, IH. Qed.

Lemma accepted_ext f g l :
  (∀ ix, f ix = g ix) → accepted f l = accepted g l.
Proof. intros H. induction l as [|ix l IH]; cbn; [done|]. by rewrite H, IH. Qed.

Lemma refused_stable r r' ix :
  driver r' = driver r → users (world r') = users (world r) →
  refused r' ix = refused r ix.
Proof. intros Hd Hu. unfold refused. by rewrite Hd, Hu. Qed.

Lemma create_all_run (l : list IndexCall) (r : Runtime) :
  ∃ r', create_all l r
        = (match first_refusal (refused r) l with
           | Some e => Raise e
           | None => Return ()
           end, r')
    ∧ driver r' = driver r
    ∧ database r' = database r
    ∧ users (world r') = users (world r)
    ∧ log (world r') = log (world r)
    ∧ ops (world r') = ops (world r)
    ∧ (∀ ix, ix ∈ indexes r' ↔ ix ∈ indexes r ∨ ix ∈ accepted (refused r) l)
    ∧ email_index (world r')
      = email_index (world r) || bool_decide (users_email_unique ∈ accepted (refused r) l).
Proof.
  revert r. induction l as [|ix l IH]; intros r.
  - exists r. cbn. split_and!; try done.
    + intros ix. rewrite elem_of_nil. tauto.
    + by rewrite orb_false_r.
  - cbn [create_all first_refusal accepted]. rewrite L_bind_run.
    unfold create_index at 1.
    destruct (refused r ix) as [e|] eqn:Href.
    { exists r. split_and!; try done.
      + intros ix'. rewrite elem_of_nil. tauto.
      + by rewrite orb_false_r. }
    set (r1 := set_indexes _ _).
    assert (driver r1 = driver r) as Hd by (subst r1; by case_bool_decide; destruct r).
    assert (users (world r1) = users (world r)) as Hu.
    { subst r1. case_bool_decide; destruct r as [? ? ? []]; done. }
    destruct (IH r1) as (r' & Hrun & Hd' & Hdb & Hu' & Hlog & Hops & Hix & Hei).
    assert (∀ ix', refused r1 ix' = refused r ix') as Hsame
      by (intros; by apply refused_stable).
    rewrite (first_refusal_ext _ _ _ Hsame) in Hrun.
    exists r'. rewrite Hrun. split_and!; try done.
    + by rewrite Hd'.
    + rewrite Hdb. subst r1. by case_bool_decide; destruct r.
    + by rewrite Hu'.
    + rewrite Hlog. subst r1. case_bool_decide; destruct r as [? ? ? []]; done.
    + rewrite Hops. subst r1. case_bool_decide; destruct r as [? ? ? []]; done.
    + intros ix'. rewrite Hix, (accepted_ext _ _ _ Hsame), elem_of_cons.
      assert (ix' ∈ indexes r1 ↔ ix' = ix ∨ ix' ∈ indexes r) as ->.
      { subst r1. rewrite <- elem_of_add_index. by case_bool_decide; destruct r. }
      tauto.
    + rewrite Hei, (accepted_ext _ _ _ Hsame).
      subst r1. case_bool_decide as Hix'.
      * subst ix. destruct r as [? ? ? []]; cbn.
        rewrite (bool_decide_eq_true_2 (_ ∈ _ :: _)) by left.
        by rewrite orb_true_r.
      * assert (bool_decide (users_email_unique ∈ ix :: accepted (refused r) l)
                = bool_decide (users_email_unique ∈ accepted (refused r) l)) as ->.
        { apply bool_decide_ext. rewrite elem_of_cons.
          split; [intros [E|?]; [by destruct Hix'|done]|by right]. }
        by destruct r.
Qed.

Section lifecycle.
Context (settings : Settings.t).

Lemma _create_indexes_run (db : MotorDatabase) (r : Runtime) :
  database_py._create_indexes db r
  = match create_all index_calls r with
    | (Return _, r') => lift (logger_emit "info" "Database indexes created" []) r'
    | (Raise e, r') =>
        lift (logger_emit "warning" "Failed to create indexes"
                [("error", LStr (exc_str e))]) r'
    end.
Proof.
  unfold database_py._create_indexes, L_try, index_calls, create_all.
  rewrite !L_bind_run.
  repeat (match goal with
          | |- context [create_index ?ix ?x] =>
              destruct (create_index ix x) as [[[]|?] ?]; try reflexivity
          end; rewrite ?L_bind_run).
Qed.

Lemma lift_logger_emit lvl ev kv (r : Runtime) :
  lift (logger_emit lvl ev kv) r
  = (Return (), set_world (set_log (log (world r) ++ [mkLogEntry lvl ev kv]) (world r)) r).
Proof. reflexivity. Qed.

(** Extra X22. Creating the indexes never raises. The store ends up with the indexes
    it had and those requested before the first refusal; the unique index on
    email is enforced afterwards if it was before or has just been built.
    One log entry tells which way it went. *)
Theorem create_indexes_never_raises (db : MotorDatabase) (r : Runtime) :
  let run := database_py._create_indexes db r in
  fst run = Return ()
  ∧ (∀ ix, ix ∈ indexes (snd run)
           ↔ ix ∈ indexes r ∨ ix ∈ accepted (refused r) index_calls)
  ∧ email_index (world (snd run))
    = email_index (world r)
      || bool_decide (users_email_unique ∈ accepted (refused r) index_calls)
  ∧ log (world (snd run))
    = log (world r)
      ++ [match first_refusal (refused r) index_calls with
          | None => mkLogEntry "info" "Database indexes created" []
          | Some e => mkLogEntry "warning" "Failed to create indexes"
                        [("error", LStr (exc_str e))]
          end]
  ∧ users (world (snd run)) = users (world r)
  ∧ database (snd run) = database r.
Proof.
  intros run. subst run. rewrite _create_indexes_run.
  destruct (create_all_run index_calls r)
    as (r' & -> & Hd & Hdb & Hu & Hlog & Hops & Hix & Hei).
  destruct (first_refusal _ _) as [e|]; rewrite lift_logger_emit; cbn [fst snd];
    (split_and!; [done| | | | |]);
    try (by destruct r' as [? ? ? []]).
  all: try (rewrite <- Hlog; by destruct r' as [? ? ? []]).
  all: try (intros ix; rewrite <- Hix; by destruct r' as [? ? ? []]).
  all: try (rewrite <- Hei; by destruct r' as [? ? ? []]).
  all: try (rewrite <- Hu; by destruct r' as [? ? ? []]).
  all: try (rewrite <- Hdb; by destruct r' as [? ? ? []]).
Qed.

Lemma _create_indexes_returns (db : MotorDatabase) (r : Runtime) :
  fst (database_py._create_indexes db r) = Return ().
Proof.
  rewrite _create_indexes_run.
  destruct (create_all index_calls r) as [[[]|e] r']; by rewrite lift_logger_emit.
Qed.

Lemma connect_run (r : Runtime) :
  let c := client_of settings in
  let d := mkMotorDatabase (Settings.mongodb_uri settings) in
  let logged entry r := set_world (set_log (log (world r) ++ [entry]) (world r)) r in
  database_py.connect settings r
  = match client_fault (driver r) with
    | Some e => (Raise e, logged (connect_error e) r)
    | None =>
        match database_fault (driver r) with
        | Some e =>
            (Raise e,
             logged (connect_error e)
               (set_database (Database.mk (Some c) (Database.db (database r))) r))
        | None =>
            let r2 := set_world (set_ops (ops (world r) ++ [OpPing]) (world r))
                        (set_database (Database.mk (Some c) (Some d)) r) in
            match ping (world r) with
            | Some e => (Raise e, logged (connect_error e) r2)
            | None =>
                database_py._create_indexes d
                  (logged (mkLogEntry "info" "Connected to MongoDB" []) r2)
            end
        end
    end.
Proof.
  cbn zeta. unfold database_py.connect, L_try, new_client, client_get_database, get_runtime.
  rewrite !L_bind_run.
  destruct r as [db ixs [cf df xf] w]. cbn [driver client_fault database_fault].
  destruct cf as [e|]; [reflexivity|]. cbv beta iota. rewrite !L_bind_run.
  cbn [driver database_fault set_database]. destruct df as [e|]; [reflexivity|].
  cbv beta iota. rewrite !L_bind_run.
  unfold lift at 1. cbn [world set_database].
  unfold command_ping, issue, modify, get_world. rewrite !M_bind_run. cbv beta iota.
  replace (ping (set_ops _ w)) with (ping w) by (by destruct w).
  destruct (ping w) as [e|] eqn:Hp.
  - by destruct w.
  - unfold mret, M_ret. cbv beta iota. rewrite L_bind_run, lift_logger_emit.
    unfold client_of.
    match goal with
    | |- context [database_py._create_indexes ?d ?x] => set (X := x); set (D := d)
    end.
    match goal with
    | |- _ = database_py._create_indexes ?d ?y => change y with X; change d with D
    end.
    pose proof (_create_indexes_returns D X) as Hret.
    by destruct (database_py._create_indexes D X) as [[[]|e] r'].
Qed.

(** Extra X23. [connect] raises exactly when building the client, resolving the default
    database or the probe fails, and then with that very exception, after
    logging it; a refused index never makes it raise. On a failure no index
    is built and the collection is untouched. *)
Theorem connect_outcome (r : Runtime) :
  let run := database_py.connect settings r in
  fst run = match connect_fault r with Some e => Raise e | None => Return () end
  ∧ users (world (snd run)) = users (world r)
  ∧ ∀ e, connect_fault r = Some e →
      last (log (world (snd run))) = Some (connect_error e)
      ∧ indexes (snd run) = indexes r
      ∧ email_index (world (snd run)) = email_index (world r).
Proof.
  intros run. subst run. rewrite connect_run. unfold connect_fault. cbn zeta.
  destruct (client_fault (driver r)) as [e|].
  { cbn. split_and!; [done|by destruct r as [? ? ? []]|].
    intros ? [= <-]. split_and!; try by destruct r as [? ? ? []].
    destruct r as [? ? ? []]. cbn. apply last_snoc. }
  destruct (database_fault (driver r)) as [e|].
  { cbn. split_and!; [done|by destruct r as [? ? ? []]|].
    intros ? [= <-]. split_and!; try by destruct r as [? ? ? []].
    destruct r as [? ? ? []]. cbn. apply last_snoc. }
  destruct (ping (world r)) as [e|].
  { cbn. split_and!; [done|by destruct r as [? ? ? []]|].
    intros ? [= <-]. split_and!; try by destruct r as [? ? ? []].
    destruct r as [? ? ? []]. cbn. apply last_snoc. }
  split_and!; [apply _create_indexes_returns| |done].
  rewrite _create_indexes_run.
  match goal with
  | |- context [create_all index_calls ?x] =>
      destruct (create_all_run index_calls x) as (r' & -> & _ & _ & Hu & _)
  end.
  destruct (first_refusal _ _); rewrite lift_logger_emit; cbn [snd];
    (transitivity (users (world r')); [by destruct r' as [? ? ? []]|]);
    rewrite Hu; by destruct r as [? ? ? []].
Qed.

(** Extra X24. What [connect] leaves in the manager: the client as soon as it is built,
    the database handle as soon as it is resolved, both from the settings,
    whether or not the probe then fails. *)
Theorem connect_assigns_client_and_db (r : Runtime) :
  let d := database (snd (database_py.connect settings r)) in
  Database.client d
  = match client_fault (driver r) with
    | None => Some (client_of settings)
    | Some _ => Database.client (database r)
    end
  ∧ Database.db d
    = match client_fault (driver r), database_fault (driver r) with
      | None, None => Some (mkMotorDatabase (Settings.mongodb_uri settings))
      | _, _ => Database.db (database r)
      end.
Proof.
  cbn zeta. rewrite connect_run. cbn zeta.
  destruct (client_fault (driver r)) as [e|]; [by destruct r|].
  destruct (database_fault (driver r)) as [e|]; [by destruct r|].
  destruct (ping (world r)) as [e|]; [by destruct r|].
  rewrite _create_indexes_run.
  match goal with
  | |- context [create_all index_calls ?x] =>
      destruct (create_all_run index_calls x) as (r' & -> & _ & Hdb & _)
  end.
  destruct (first_refusal _ _); rewrite lift_logger_emit; cbn [snd];
    (replace (database (set_world _ r')) with (database r') by (by destruct r'));
    rewrite Hdb; by destruct r.
Qed.

Lemma disconnect_run (r : Runtime) :
  database_py.disconnect r
  = match Database.client (database r) with
    | None => (Return (), r)
    | Some c =>
        (Return (),
         set_world
           (set_log (log (world r)
                     ++ [mkLogEntry "info" "Disconnected from MongoDB" []]) (world r))
           (set_database
              (Database.mk
                 (Some (mkMotorClient (client_uri c) (maxPoolSize c) (minPoolSize c)
                          (maxIdleTimeMS c) true))
                 (Database.db (database r))) r))
    end.
Proof.
  unfold database_py.disconnect, get_runtime. rewrite L_bind_run. cbv beta iota.
  by destruct (Database.client (database r)).
Qed.

(** Extra X25. [disconnect] never raises. Without a client it does nothing at all; with
    one it closes it and logs one entry, keeping the client's settings, the
    database handle, the indexes and the collection. *)
Theorem disconnect_closes_client (r : Runtime) :
  let run := database_py.disconnect r in
  fst run = Return ()
  ∧ (Database.client (database r) = None → snd run = r)
  ∧ (∀ c, Database.client (database r) = Some c →
       Database.client (database (snd run))
       = Some (mkMotorClient (client_uri c) (maxPoolSize c) (minPoolSize c)
                 (maxIdleTimeMS c) true)
       ∧ log (world (snd run))
         = log (world r) ++ [mkLogEntry "info" "Disconnected from MongoDB" []])
  ∧ Database.db (database (snd run)) = Database.db (database r)
  ∧ indexes (snd run) = indexes r
  ∧ users (world (snd run)) = users (world r).
Proof.
  intros run. subst run. rewrite disconnect_run.
  destruct (Database.client (database r)) as [c|].
  - cbn. split_and!; try done; try by destruct r as [? ? ? []].
    intros ? [= <-]. by destruct r as [? ? ? []].
  - by split_and!.
Qed.

Lemma get_database_run (r : Runtime) :
  database_py.get_database settings r
  = match Database.db (database r) with
    | Some d => (Return (Some d), r)
    | None =>
        match database_py.connect settings r with
        | (Return _, r1) => (Return (Database.db (database r1)), r1)
        | (Raise e, r1) => (Raise e, r1)
        end
    end.
Proof.
  unfold database_py.get_database, get_runtime.
  rewrite L_bind_run. cbv beta iota. rewrite L_bind_run.
  destruct (Database.db (database r)) as [d|] eqn:Hd.
  - unfold mbind, L_bind, mret, L_ret. cbn. by rewrite Hd.
  - unfold mbind, L_bind, mret, L_ret.
    by destruct (database_py.connect settings r) as [[[]|e] r1].
Qed.

(** Extra X26. The dependency of the services: with a database handle in the manager
    it returns that handle and does nothing else, not even a probe; without
    one it connects first, and raises what [connect] raises. *)
Theorem get_database_connects_once (r : Runtime) :
  (∀ d, Database.db (database r) = Some d →
     database_py.get_database settings r = (Return (Some d), r))
  ∧ (Database.db (database r) = None →
     fst (database_py.get_database settings r)
     = match connect_fault r with
       | Some e => Raise e
       | None => Return (Some (mkMotorDatabase (Settings.mongodb_uri settings)))
       end).
Proof.
  split.
  - intros d Hd. by rewrite get_database_run, Hd.
  - intros Hd. rewrite get_database_run, Hd.
    pose proof (connect_run r) as Hrun. cbn zeta in Hrun.
    destruct (database_py.connect settings r) as [[[]|e] r1] eqn:Hc.
    + unfold connect_fault.
      destruct (client_fault (driver r)) as [e|] eqn:Hcf; [done|].
      destruct (database_fault (driver r)) as [e|] eqn:Hdf; [done|].
      destruct (ping (world r)) as [e|]; [done|].
      cbn. f_equal.
      assert (Database.db (database r1)
              = Some (mkMotorDatabase (Settings.mongodb_uri settings))) as ->; [|done].
      rewrite _create_indexes_run in Hrun.
      match type of Hrun with
      | context [create_all index_calls ?x] =>
          destruct (create_all_run index_calls x) as (r' & Hr' & _ & Hdb & _)
      end.
      rewrite Hr' in Hrun.
      destruct (first_refusal _ _); rewrite lift_logger_emit in Hrun;
        injection Hrun as ->; cbn; by rewrite Hdb.
    + unfold connect_fault.
      destruct (client_fault (driver r)) as [e'|]; [by injection Hrun as -> _|].
      destruct (database_fault (driver r)) as [e'|]; [by injection Hrun as -> _|].
      destruct (ping (world r)) as [e'|]; [by injection Hrun as -> _|].
      apply (f_equal fst) in Hrun. by rewrite _create_indexes_returns in Hrun.
Qed.

(** Extra X27. After a probe failure the manager still holds the handle [connect] had
    assigned, so the dependency hands it out without connecting again. *)
Theorem get_database_after_failed_probe (r : Runtime) (e : PyExc) :
  client_fault (driver r) = None →
  database_fault (driver r) = None →
  ping (world r) = Some e →
  let r1 := snd (database_py.connect settings r) in
  fst (database_py.connect settings r) = Raise e
  ∧ database_py.get_database settings r1
    = (Return (Some (mkMotorDatabase (Settings.mongodb_uri settings))), r1).
Proof.
  intros Hc Hd Hp r1. subst r1. rewrite connect_run. cbn zeta. rewrite Hc, Hd, Hp.
  split; [done|]. cbn [snd]. rewrite get_database_run.
  by destruct r as [? ? ? []].
Qed.

Lemma connect_cases (r : Runtime) :
  ∃ r', database_py.connect settings r
        = (match connect_fault r with Some e => Raise e | None => Return () end, r')
    ∧ users (world r') = users (world r)
    ∧ (connect_fault r = None →
       database r'
       = Database.mk (Some (client_of settings))
           (Some (mkMotorDatabase (Settings.mongodb_uri settings)))).
Proof.
  rewrite connect_run. unfold connect_fault. cbn zeta.
  destruct (client_fault (driver r)) as [e|].
  { eexists. split_and!; [done|by destruct r as [? ? ? []]|done]. }
  destruct (database_fault (driver r)) as [e|].
  { eexists. split_and!; [done|by destruct r as [? ? ? []]|done]. }
  destruct (ping (world r)) as [e|].
  { eexists. split_and!; [done|by destruct r as [? ? ? []]|done]. }
  rewrite _create_indexes_run.
  match goal with
  | |- context [create_all index_calls ?x] =>
      destruct (create_all_run index_calls x) as (r' & -> & _ & Hdb & Hu & _)
  end.
  destruct (first_refusal _ _); rewrite lift_logger_emit; eexists;
    (split_and!; [done| |intros _]); cbn [snd].
  all: try (transitivity (users (world r')); [by destruct r' as [? ? ? []]|];
            rewrite Hu; by destruct r as [? ? ? []]).
  all: transitivity (database r'); [by destruct r'|]; rewrite Hdb; by destruct r.
Qed.

(** Extra X28. Start-up ends in [sys.exit(1)] exactly when [connect] fails, after
    logging the failure; otherwise the application serves. The collection is
    not touched either way. *)
Theorem lifespan_startup_outcome (r : Runtime) :
  let run := lifespan.startup settings r in
  fst run = match connect_fault r with None => Serving | Some _ => SystemExit 1 end
  ∧ last (log (world (snd run)))
    = Some (match connect_fault r with
            | None => mkLogEntry "info" "Application started successfully" []
            | Some e => mkLogEntry "error" "Failed to start application"
                          [("error", LStr (exc_str e))]
            end)
  ∧ users (world (snd run)) = users (world r).
Proof.
  intros run. subst run. unfold lifespan.startup, database_py.connect_database.
  rewrite lift_logger_emit.
  set (r1 := set_world _ r).
  assert (connect_fault r1 = connect_fault r) as Hcf by (by destruct r as [? ? ? []]).
  assert (users (world r1) = users (world r)) as Hu1 by (by destruct r as [? ? ? []]).
  destruct (connect_cases r1) as (r2 & -> & Hu & _). rewrite Hcf.
  destruct (connect_fault r); rewrite lift_logger_emit; cbn [fst snd];
    (split_and!; [done| |]).
  all: try (destruct r2 as [? ? ? []]; cbn; apply last_snoc).
  all: transitivity (users (world r2)); [by destruct r2 as [? ? ? []]|]; congruence.
Qed.

Lemma shutdown_run (r : Runtime) :
  let logged entry r := set_world (set_log (log (world r) ++ [entry]) (world r)) r in
  lifespan.shutdown r
  = (Return (),
     logged (mkLogEntry "info" "Application shutdown complete" [])
       (snd (database_py.disconnect
               (logged (mkLogEntry "info" "Shutting down application..." []) r)))).
Proof.
  cbn zeta. unfold lifespan.shutdown, database_py.disconnect_database.
  rewrite !L_bind_run, lift_logger_emit. cbv beta iota. rewrite !L_bind_run.
  rewrite disconnect_run.
  destruct (Database.client (database (set_world _ r))); by rewrite lift_logger_emit.
Qed.

(** Extra X29. Shutting down never raises, also when no connection was ever opened; a
    client the manager holds ends up closed, and the collection is not
    touched. *)
Theorem lifespan_shutdown_outcome (r : Runtime) :
  let run := lifespan.shutdown r in
  fst run = Return ()
  ∧ Database.client (database (snd run))
    = (λ c, mkMotorClient (client_uri c) (maxPoolSize c) (minPoolSize c)
              (maxIdleTimeMS c) true) <$> Database.client (database r)
  ∧ last (log (world (snd run)))
    = Some (mkLogEntry "info" "Application shutdown complete" [])
  ∧ users (world (snd run)) = users (world r).
Proof.
  intros run. subst run. rewrite shutdown_run. cbn zeta. rewrite disconnect_run.
  destruct r as [[[c|] d] ixs drv []]; cbn; split_and!; try done; apply last_snoc.
Qed.

(** Extra X30. A start-up that succeeds followed by the shutdown: the client built from
    the settings is the one that ends up closed. *)
Theorem lifespan_startup_then_shutdown (r : Runtime) :
  connect_fault r = None →
  let r1 := snd (lifespan.startup settings r) in
  fst (lifespan.startup settings r) = Serving
  ∧ Database.client (database r1) = Some (client_of settings)
  ∧ fst (lifespan.shutdown r1) = Return ()
  ∧ Database.client (database (snd (lifespan.shutdown r1)))
    = Some (mkMotorClient (Settings.mongodb_uri settings)
              (Settings.mongodb_max_pool_size settings)
              (Settings.mongodb_min_pool_size settings)
              (Settings.mongodb_max_idle_time_ms settings) true).
Proof.
  intros Hok r1. subst r1. unfold lifespan.startup, database_py.connect_database.
  rewrite lift_logger_emit.
  set (r0 := set_world _ r).
  assert (connect_fault r0 = None) as Hcf by (rewrite <- Hok; by destruct r as [? ? ? []]).
  destruct (connect_cases r0) as (r2 & -> & _ & Hdb). rewrite Hcf.
  specialize (Hdb Hcf). rewrite lift_logger_emit. cbn [fst snd].
  rewrite shutdown_run. cbn zeta. rewrite disconnect_run.
  destruct r2 as [db2 ? ? []]. cbn in Hdb. subst db2. by cbn.
Qed.
End lifecycle.

(** * The further properties at sample inputs *)

Example samples_agree :
  users world_ann = [ann_document]
  ∧ users world_three = [ann_document; bob_document; cyd_document]
  ∧ read_back ann_created = ann_user
  ∧ read_back bob_created = bob_user
  ∧ ObjectId_parse bob_id = Some (sample_oid 1)
  ∧ ObjectId_parse absent_id = Some absent_oid.
Proof. vm_compute. done. Qed.

Lemma returned_users_satisfy_model_witness :
  let ve := sample_validate_email in
  result (UserService.get_user_by_id ve ann_id world_three) = Return (Some ann_user)
  ∧ result (UserService.get_user_by_email ve "bob@x.com" world_three) = Return (Some bob_user)
  ∧ result (UserService.list_users ve 2 10 world_three) = Return [cyd_user]
  ∧ User_ok ann_user = true
  ∧ User_ok bob_user = true
  ∧ Forall (λ u, User_ok u = true) [cyd_user].
Proof.
  intros ve.
  assert (result (UserService.get_user_by_id ve ann_id world_three) = Return (Some ann_user))
    as H1 by (vm_compute; reflexivity).
  assert (result (UserService.get_user_by_email ve "bob@x.com" world_three)
          = Return (Some bob_user)) as H2 by (vm_compute; reflexivity).
  assert (result (UserService.list_users ve 2 10 world_three) = Return [cyd_user])
    as H3 by (vm_compute; reflexivity).
  destruct (returned_users_satisfy_model ve ann_id "bob@x.com" 2 10 world_three)
    as (T1 & T2 & T3).
  split_and!; [exact H1|exact H2|exact H3|exact (T1 _ H1)|exact (T2 _ H2)|exact (T3 _ H3)].
Defined.

Lemma get_user_by_email_first_match_witness :
  let ve := sample_validate_email in
  ¬ Exists (has_email "nobody@x.com") (users world_three)
  ∧ result (UserService.get_user_by_email ve "nobody@x.com" world_three) = Return None
  ∧ users world_three !! 1%nat = Some bob_document
  ∧ has_email "bob@x.com" bob_document
  ∧ result (UserService.get_user_by_email ve "bob@x.com" world_three)
    = match user_of ve bob_document with
      | Some u => Return (Some u)
      | None => Raise (ValidationError "User")
      end.
Proof.
  intros ve.
  assert (¬ Exists (has_email "nobody@x.com") (users world_three)) as H1 by compute_done.
  assert (users world_three !! 1%nat = Some bob_document) as H2 by (vm_compute; reflexivity).
  assert (has_email "bob@x.com" bob_document) as H3 by compute_done.
  assert (∀ j d', users world_three !! j = Some d' → (j < 1)%nat →
                  ¬ has_email "bob@x.com" d') as H4.
  { intros j d' Hj Hlt. assert (j = 0%nat) as -> by lia.
    assert (users world_three !! 0%nat = Some ann_document) as E
      by (vm_compute; reflexivity).
    rewrite E in Hj. injection Hj as <-. compute_done. }
  split_and!; [exact H1| |exact H2|exact H3|].
  - exact (proj1 (proj2 (proj2 (get_user_by_email_first_match ve "nobody@x.com" world_three))) H1).
  - exact (proj2 (proj2 (proj2 (get_user_by_email_first_match ve "bob@x.com" world_three)))
             1%nat bob_document H2 H3 H4).
Defined.

Lemma create_then_get_by_email_witness :
  let ve := sample_validate_email in
  let r := routers.create_user ve bob world_ann in
  result r = Return bob_created
  ∧ result (UserService.get_user_by_email ve (UserCreate.email bob) (world_after r))
    = Return (Some (read_back bob_created)).
Proof.
  intros ve r.
  assert (result r = Return bob_created) as H by (vm_compute; reflexivity).
  split; [exact H|]. exact (create_then_get_by_email ve bob bob_created world_ann H).
Defined.

Lemma update_user_keeps_id_and_created_at_witness :
  let ve := sample_validate_email in
  let r := routers.update_user ve ann_id suspend world_ann in
  users (world_after r) !! 0%nat = Some ann_document_suspended
  ∧ doc_id <$> users (world_after r) = doc_id <$> users world_ann
  ∧ ∃ d, users world_ann !! 0%nat = Some d
         ∧ doc_id ann_document_suspended = doc_id d
         ∧ doc_fields ann_document_suspended !! "created_at" = doc_fields d !! "created_at".
Proof.
  intros ve r.
  assert (users (world_after r) !! 0%nat = Some ann_document_suspended) as H
    by (vm_compute; reflexivity).
  destruct (update_user_keeps_id_and_created_at ve ann_id suspend world_ann) as (T1 & T2).
  split_and!; [exact H|exact T1|exact (T2 0%nat ann_document_suspended H)].
Defined.

Lemma update_user_keeps_emails_unique_witness :
  let ve := sample_validate_email in
  email_index world_three = true
  ∧ emails_unique (users world_three)
  ∧ emails_unique
      (users (world_after
         (routers.update_user ve ann_id
            (UserUpdate.mk None (Some (Some "ann@y.org")) None None) world_three))).
Proof.
  intros ve.
  assert (email_index world_three = true) as H1 by (vm_compute; reflexivity).
  assert (emails_unique (users world_three)) as H2 by compute_done.
  split_and!; [exact H1|exact H2|].
  exact (update_user_keeps_emails_unique ve ann_id _ world_three H1 H2).
Defined.

Lemma create_user_count_witness :
  let ve := sample_validate_email in
  let r := routers.create_user ve bob world_ann in
  UserCreate_valid ve bob = true
  ∧ result (UserService.count_users (world_after r))
    = Return (Z.of_nat (length (users world_ann))
              + (if returned (result r) then 1 else 0))%Z.
Proof.
  intros ve r.
  assert (UserCreate_valid ve bob = true) as H by (vm_compute; reflexivity).
  split; [exact H|]. exact (create_user_count ve bob world_ann H).
Defined.

Lemma create_user_keeps_emails_unique_witness :
  let ve := sample_validate_email in
  emails_unique (users world_ann)
  ∧ emails_unique (users (world_after (routers.create_user ve bob world_ann))).
Proof.
  intros ve.
  assert (emails_unique (users world_ann)) as H by compute_done.
  split; [exact H|]. exact (create_user_keeps_emails_unique ve bob world_ann H).
Defined.

Lemma service_calls_on_absent_id_witness :
  let ve := sample_validate_email in
  ObjectId_parse absent_id = Some absent_oid
  ∧ ¬ Exists (has_id absent_oid) (users world_ann)
  ∧ result (UserService.get_user_by_id ve absent_id world_ann) = Return None
  ∧ result (UserService.update_user ve absent_id suspend world_ann) = Return None
  ∧ users (world_after (UserService.update_user ve absent_id suspend world_ann))
    = users world_ann
  ∧ result (UserService.delete_user absent_id world_ann) = Return false
  ∧ users (world_after (UserService.delete_user absent_id world_ann)) = users world_ann.
Proof.
  intros ve.
  assert (ObjectId_parse absent_id = Some absent_oid) as H1 by (vm_compute; reflexivity).
  assert (¬ Exists (has_id absent_oid) (users world_ann)) as H2 by compute_done.
  split; [exact H1|]. split; [exact H2|].
  exact (service_calls_on_absent_id ve absent_id absent_oid suspend world_ann H1 H2).
Defined.

Lemma update_user_null_name_witness :
  let ve := sample_validate_email in
  let r := routers.update_user ve ann_id null_name world_ann in
  UserUpdate.name null_name = Some None
  ∧ users (world_after r) ≠ users world_ann
  ∧ returned (result r) = false
  ∧ result r = Raise (HTTPException 500 "Failed to update user")
  ∧ result (UserService.get_user_by_id ve ann_id (world_after r)) = Return None.
Proof.
  intros ve r.
  assert (UserUpdate.name null_name = Some None) as H1 by reflexivity.
  assert (users (world_after r) ≠ users world_ann) as H2 by compute_done.
  destruct (update_user_null_name ve ann_id null_name world_ann H1) as (T1 & T2).
  destruct (T2 H2) as (T3 & T4).
  split_and!; [exact H1|exact H2|exact T1|exact T3|exact T4].
Defined.

Lemma list_users_past_the_end_witness :
  let ve := sample_validate_email in
  (1 ≤ 3)%Z ∧ (1 ≤ 2 ≤ 100)%Z
  ∧ (Z.of_nat (length (users world_three)) ≤ (3 - 1) * 2)%Z
  ∧ ∃ r, result (routers.list_users ve 3 2 world_three) = Return r
      ∧ UserListResponse.users r = []
      ∧ PaginationInfo.total (UserListResponse.pagination r)
        = Z.of_nat (length (users world_three))
      ∧ (PaginationInfo.pages (UserListResponse.pagination r) < 3)%Z.
Proof.
  intros ve.
  assert (1 ≤ 3)%Z as H1 by lia.
  assert (1 ≤ 2 ≤ 100)%Z as H2 by lia.
  assert (Z.of_nat (length (users world_three)) ≤ (3 - 1) * 2)%Z as H3
    by (vm_compute; discriminate).
  split; [exact H1|]. split; [exact H2|]. split; [exact H3|].
  exact (list_users_past_the_end ve 3 2 world_three H1 H2 H3).
Defined.

Lemma list_users_page_of_record_witness :
  let ve := sample_validate_email in
  (1 ≤ 2 ≤ 100)%Z
  ∧ store_valid ve (users world_three)
  ∧ users world_three !! 2%nat = Some cyd_document
  ∧ ∃ r u, result (routers.list_users ve (Z.of_nat 2 `div` 2 + 1) 2 world_three) = Return r
      ∧ user_of ve cyd_document = Some u
      ∧ UserListResponse.users r !! Z.to_nat (Z.of_nat 2 `mod` 2) = Some u.
Proof.
  intros ve.
  assert (1 ≤ 2 ≤ 100)%Z as H1 by lia.
  assert (store_valid ve (users world_three)) as H2 by compute_done.
  assert (users world_three !! 2%nat = Some cyd_document) as H3 by (vm_compute; reflexivity).
  split; [exact H1|]. split; [exact H2|]. split; [exact H3|].
  exact (list_users_page_of_record ve 2 2 cyd_document world_three H1 H2 H3).
Defined.

Lemma list_users_rejects_out_of_range_witness :
  let ve := sample_validate_email in
  (0 < 1 ∨ 10 < 1 ∨ 100 < 10)%Z
  ∧ (∃ param, routers.list_users ve 0 10 world_three
              = (Raise (RequestValidationError param), world_three))
  ∧ ∃ param,
      exception_middleware (serve 200 BUserList (routers.list_users ve 0 10)) world_three
      = (Return (mkResponse 422 (BDetail param)), world_three).
Proof.
  intros ve.
  assert (0 < 1 ∨ 10 < 1 ∨ 100 < 10)%Z as H by (left; lia).
  split; [exact H|]. exact (list_users_rejects_out_of_range ve 0 10 world_three H).
Defined.

Lemma health_check_healthy_witness :
  let r := routers.health_check sample_world in
  ping sample_world = None
  ∧ result (SystemService.health_check sample_world)
    = Return {[ "status" := "healthy"; "database" := "connected" ]}
  ∧ result r = Return (HealthResponse.mk "healthy" "connected"
                         (clock sample_world (ticks sample_world)))
  ∧ issued sample_world r = [OpPing]
  ∧ ticks (world_after r) = S (ticks sample_world)
  ∧ users (world_after r) = users sample_world
  ∧ log (world_after r) = log sample_world.
Proof.
  intros r.
  assert (ping sample_world = None) as H by reflexivity.
  split; [exact H|]. exact (health_check_healthy sample_world H).
Defined.

Lemma create_user_duplicate_refused_by_index_witness :
  let ve := sample_validate_email in
  let r := UserService.create_user ve ann world_ann in
  email_index world_ann = true
  ∧ Exists (has_email (UserCreate.email ann)) (users world_ann)
  ∧ (∃ index, result r = Raise (DuplicateKeyError index))
  ∧ users (world_after r) = users world_ann.
Proof.
  intros ve r.
  assert (email_index world_ann = true) as H1 by (vm_compute; reflexivity).
  assert (Exists (has_email (UserCreate.email ann)) (users world_ann)) as H2 by compute_done.
  split; [exact H1|]. split; [exact H2|].
  exact (create_user_duplicate_refused_by_index ve ann world_ann H1 H2).
Defined.

Lemma create_user_duplicate_inserted_without_index_witness :
  let ve := sample_validate_email in
  let w := world_ann_no_index in
  let r := UserService.create_user ve ann w in
  email_index w = false
  ∧ UserCreate_valid ve ann = true
  ∧ Exists (has_email (UserCreate.email ann)) (users w)
  ∧ ¬ Exists (has_id (oid_source w (oids_taken w))) (users w)
  ∧ returned (result r) = true
  ∧ length (users (world_after r)) = S (length (users w))
  ∧ ¬ emails_unique (users (world_after r)).
Proof.
  intros ve w r.
  assert (email_index w = false) as H1 by (vm_compute; reflexivity).
  assert (UserCreate_valid ve ann = true) as H2 by (vm_compute; reflexivity).
  assert (Exists (has_email (UserCreate.email ann)) (users w)) as H3 by compute_done.
  assert (¬ Exists (has_id (oid_source w (oids_taken w))) (users w)) as H4 by compute_done.
  split; [exact H1|]. split; [exact H2|]. split; [exact H3|]. split; [exact H4|].
  exact (create_user_duplicate_inserted_without_index ve ann w H1 H2 H3 H4).
Defined.

Lemma create_user_keeps_invariants_witness :
  let ve := sample_validate_email in
  let r := UserService.create_user ve bob world_ann in
  result r = Return bob_created
  ∧ store_valid ve (users world_ann) ∧ unique_ids (users world_ann)
  ∧ store_valid ve (users (world_after r)) ∧ unique_ids (users (world_after r)).
Proof.
  intros ve r.
  assert (result r = Return bob_created) as H1 by (vm_compute; reflexivity).
  assert (store_valid ve (users world_ann)) as H2 by compute_done.
  assert (unique_ids (users world_ann)) as H3 by compute_done.
  split; [exact H1|]. split; [exact H2|]. split; [exact H3|].
  exact (create_user_keeps_invariants ve bob bob_created world_ann H1 H2 H3).
Defined.

Lemma delete_user_keeps_invariants_witness :
  let ve := sample_validate_email in
  let r := UserService.delete_user bob_id world_three in
  store_valid ve (users world_three) ∧ unique_ids (users world_three)
  ∧ store_valid ve (users (world_after r)) ∧ unique_ids (users (world_after r)).
Proof.
  intros ve r.
  assert (store_valid ve (users world_three)) as H2 by compute_done.
  assert (unique_ids (users world_three)) as H3 by compute_done.
  split; [exact H2|]. split; [exact H3|].
  exact (delete_user_keeps_invariants ve bob_id world_three H2 H3).
Defined.

Lemma connect_outcome_witness :
  let e := ConnectionFailure "localhost:27017: connection refused" in
  let run := database_py.connect Settings.defaults runtime_probe_down in
  connect_fault runtime_probe_down = Some e
  ∧ fst run = Raise e
  ∧ last (log (world (snd run))) = Some (connect_error e)
  ∧ indexes (snd run) = indexes runtime_probe_down
  ∧ email_index (world (snd run)) = email_index (world runtime_probe_down).
Proof.
  intros e run.
  assert (connect_fault runtime_probe_down = Some e) as H by reflexivity.
  destruct (connect_outcome Settings.defaults runtime_probe_down) as (T1 & _ & T3).
  destruct (T3 e H) as (T4 & T5 & T6).
  split_and!; [exact H| |exact T4|exact T5|exact T6].
  subst run. rewrite T1, H. reflexivity.
Defined.

Lemma disconnect_closes_client_witness :
  Database.client (database runtime_fresh) = None
  ∧ snd (database_py.disconnect runtime_fresh) = runtime_fresh
  ∧ Database.client (database runtime_connected) = Some (client_of Settings.defaults)
  ∧ Database.client (database (snd (database_py.disconnect runtime_connected)))
    = Some (mkMotorClient "mongodb://localhost:27017/userdb" 50 10 30000 true)
  ∧ log (world (snd (database_py.disconnect runtime_connected)))
    = log (world runtime_connected) ++ [mkLogEntry "info" "Disconnected from MongoDB" []].
Proof.
  assert (Database.client (database runtime_fresh) = None) as H1 by reflexivity.
  assert (Database.client (database runtime_connected) = Some (client_of Settings.defaults))
    as H2 by (vm_compute; reflexivity).
  destruct (disconnect_closes_client runtime_fresh) as (_ & T1 & _).
  destruct (disconnect_closes_client runtime_connected) as (_ & _ & T2 & _).
  destruct (T2 _ H2) as (T3 & T4).
  split_and!; [exact H1|exact (T1 H1)|exact H2|exact T3|exact T4].
Defined.

Lemma get_database_connects_once_witness :
  let handle := mkMotorDatabase "mongodb://localhost:27017/userdb" in
  Database.db (database runtime_connected) = Some handle
  ∧ database_py.get_database Settings.defaults runtime_connected
    = (Return (Some handle), runtime_connected)
  ∧ Database.db (database runtime_fresh) = None
  ∧ fst (database_py.get_database Settings.defaults runtime_fresh)
    = match connect_fault runtime_fresh with
      | Some e => Raise e
      | None => Return (Some (mkMotorDatabase (Settings.mongodb_uri Settings.defaults)))
      end.
Proof.
  intros handle.
  assert (Database.db (database runtime_connected) = Some handle) as H1
    by (vm_compute; reflexivity).
  assert (Database.db (database runtime_fresh) = None) as H2 by reflexivity.
  destruct (get_database_connects_once Settings.defaults runtime_connected) as (T1 & _).
  destruct (get_database_connects_once Settings.defaults runtime_fresh) as (_ & T2).
  split_and!; [exact H1|exact (T1 _ H1)|exact H2|exact (T2 H2)].
Defined.

Lemma get_database_after_failed_probe_witness :
  let e := ConnectionFailure "localhost:27017: connection refused" in
  let r1 := snd (database_py.connect Settings.defaults runtime_probe_down) in
  client_fault (driver runtime_probe_down) = None
  ∧ database_fault (driver runtime_probe_down) = None
  ∧ ping (world runtime_probe_down) = Some e
  ∧ fst (database_py.connect Settings.defaults runtime_probe_down) = Raise e
  ∧ database_py.get_database Settings.defaults r1
    = (Return (Some (mkMotorDatabase (Settings.mongodb_uri Settings.defaults))), r1).
Proof.
  intros e r1.
  assert (client_fault (driver runtime_probe_down) = None) as H1 by reflexivity.
  assert (database_fault (driver runtime_probe_down) = None) as H2 by reflexivity.
  assert (ping (world runtime_probe_down) = Some e) as H3 by reflexivity.
  split; [exact H1|]. split; [exact H2|]. split; [exact H3|].
  exact (get_database_after_failed_probe Settings.defaults runtime_probe_down e H1 H2 H3).
Defined.

Lemma lifespan_startup_then_shutdown_witness :
  let r1 := snd (lifespan.startup Settings.defaults runtime_fresh) in
  connect_fault runtime_fresh = None
  ∧ fst (lifespan.startup Settings.defaults runtime_fresh) = Serving
  ∧ Database.client (database r1) = Some (client_of Settings.defaults)
  ∧ fst (lifespan.shutdown r1) = Return ()
  ∧ Database.client (database (snd (lifespan.shutdown r1)))
    = Some (mkMotorClient (Settings.mongodb_uri Settings.defaults)
              (Settings.mongodb_max_pool_size Settings.defaults)
              (Settings.mongodb_min_pool_size Settings.defaults)
              (Settings.mongodb_max_idle_time_ms Settings.defaults) true).
Proof.
  intros r1.
  assert (connect_fault runtime_fresh = None) as H by reflexivity.
  split; [exact H|].
  exact (lifespan_startup_then_shutdown Settings.defaults runtime_fresh H).
Defined.

(** The sample process after connecting: all six indexes are there and the
    unique index on email is enforced. *)
Example connect_builds_the_indexes :
  fst (database_py.connect Settings.defaults runtime_fresh) = Return ()
  ∧ indexes runtime_connected = index_calls
  ∧ email_index (world runtime_connected) = true
  ∧ event <$> log (world runtime_connected)
    = ["Connected to MongoDB"; "Database indexes created"].
Proof. vm_compute. done. Qed.
